(** * download_transcript.py: a shallow embedding

    The script fetches one meeting transcript over GraphQL, renders the
    decoded JSON tree as a text report and derives two file names.  The
    decoded tree is dynamically typed, so it is modelled as a tree of Python
    values and every operation that can raise returns a [pyresult]. *)

From Stdlib Require Import ZArith QArith Qround Bool List String Ascii Lia.
From Stdlib Require Import DecimalString DecimalPos.
From Stdlib Require DecimalZ.
Import ListNotations.

Local Open Scope string_scope.
Local Open Scope Z_scope.
Local Open Scope list_scope.
#[local] Set Warnings "-register-all".

(** ** Python values

    What [json.loads] produces: [None], [bool], [int], [float], [str],
    [list] and [dict] with string keys.  A dict is an association list in
    insertion order; [lookup] reads the first binding of a key.  A finite
    float is a dyadic rational and is kept as its exact value in [Q]; the
    non-standard NaN and Infinity are left out. *)

Inductive value : Type :=
| VNone
| VBool (b : bool)
| VInt (z : Z)
| VFloat (q : Q)
| VStr (s : string)
| VList (l : list value)
| VDict (d : list (string * value)).

Definition dict := list (string * value).

(** The exceptions the script can meet.  [PlatformDateError] stands for what
    [datetime.fromtimestamp] raises out of range (OverflowError, OSError or a
    "year out of range" ValueError, by platform). *)
Inductive pyexc : Type :=
| ValueError (msg : string)
| TypeError
| AttributeError
| KeyError (key : string)
| HTTPError (status : Z)
| JSONDecodeError
| ConnectionError
| PlatformDateError
| Exception (msg : string).

Inductive pyresult (A : Type) : Type :=
| Ok (a : A)
| Raise (e : pyexc).

Arguments Ok {A} a.
Arguments Raise {A} e.

Definition bind {A B : Type} (c : pyresult A) (k : A -> pyresult B) : pyresult B :=
  match c with
  | Ok a => k a
  | Raise e => Raise e
  end.

Notation "x <- c ;; k" := (bind c (fun x => k))
  (at level 61, c at next level, right associativity).

(** What the interpreter and the platform supply and the script only calls:
    [repr] of a float, [repr] of a string (quoting and escapes), and
    [datetime.fromtimestamp(t).strftime("%Y-%m-%d %H:%M:%S")] in local time
    ([None] when [t] is out of the platform's range). *)
Record Runtime : Type := {
  float_repr : Q -> string;
  str_repr : string -> string;
  local_strftime : Q -> option string
}.

(** ** Built-ins *)

Fixpoint lookup (k : string) (d : dict) : option value :=
  match d with
  | [] => None
  | (k', v) :: d' => if String.eqb k k' then Some v else lookup k d'
  end.

(** [o.get(k, default)]: only a dict has the method. *)
Definition py_get (o : value) (k : string) (default : value) : pyresult value :=
  match o with
  | VDict d =>
      match lookup k d with
      | Some v => Ok v
      | None => Ok default
      end
  | _ => Raise AttributeError
  end.

(** Truth value testing, as [if x:] and [x or y] do it. *)
Definition truthy (v : value) : bool :=
  match v with
  | VNone => false
  | VBool b => b
  | VInt z => negb (z =? 0)
  | VFloat q => negb (Qnum q =? 0)
  | VStr s => negb (String.eqb s "")
  | VList l => match l with [] => false | _ => true end
  | VDict d => match d with [] => false | _ => true end
  end.

Definition str_of_Z (z : Z) : string := NilZero.string_of_int (Z.to_int z).

(** [sep.join(parts)] on strings. *)
Fixpoint join (sep : string) (parts : list string) : string :=
  match parts with
  | [] => ""
  | [p] => p
  | p :: rest => (p ++ sep ++ join sep rest)%string
  end.

Fixpoint py_repr (rt : Runtime) (v : value) : string :=
  match v with
  | VNone => "None"
  | VBool true => "True"
  | VBool false => "False"
  | VInt z => str_of_Z z
  | VFloat q => float_repr rt q
  | VStr s => str_repr rt s
  | VList l => ("[" ++ join ", " (map (py_repr rt) l) ++ "]")%string
  | VDict d =>
      ("{" ++ join ", " (map (fun kv => let '(k, x) := kv in
                                       str_repr rt k ++ ": " ++ py_repr rt x) d) ++ "}")%string
  end.

(** [str(v)], which is what an f-string field [{v}] inserts. *)
Definition py_str (rt : Runtime) (v : value) : string :=
  match v with
  | VStr s => s
  | _ => py_repr rt v
  end.

(** Numbers: [bool] is a subclass of [int]. *)
Inductive number : Type :=
| NInt (z : Z)
| NFloat (q : Q).

Definition as_number (v : value) : pyresult number :=
  match v with
  | VBool b => Ok (NInt (Z.b2z b))
  | VInt z => Ok (NInt z)
  | VFloat q => Ok (NFloat q)
  | _ => Raise TypeError
  end.

Definition number_Q (n : number) : Q :=
  match n with
  | NInt z => inject_Z z
  | NFloat q => q
  end.

(** [n // d] and [n % d] for a positive int literal [d]: floor division, the
    remainder has the divisor's sign; an int stays an int, a float a float.
    On a non-negative float the remainder is C's [fmod], which is exact, and
    the quotient is the floor of an exact division as long as the float is
    below 2^55, so the rational value is the float's. *)
Definition py_floordiv (n : number) (d : Z) : number :=
  match n with
  | NInt z => NInt (z / d)
  | NFloat q => NFloat (inject_Z (Qfloor (q / inject_Z d)))
  end.

Definition py_mod (n : number) (d : Z) : number :=
  match n with
  | NInt z => NInt (z mod d)
  | NFloat q => NFloat (q - inject_Z d * inject_Z (Qfloor (q / inject_Z d)))
  end.

(** [int(n)]: truncation toward zero. *)
Definition py_int (n : number) : Z :=
  match n with
  | NInt z => z
  | NFloat q => if Qnum q <? 0 then Qceiling q else Qfloor q
  end.

(** Python's [==] on decoded values: numbers compare by value across
    [bool], [int] and [float]; lists pointwise; dicts as finite maps. *)
Definition numeric (v : value) : option Q :=
  match v with
  | VBool b => Some (inject_Z (Z.b2z b))
  | VInt z => Some (inject_Z z)
  | VFloat q => Some q
  | _ => None
  end.

Definition num_eqb (q : Q) (v : value) : bool :=
  match numeric v with
  | Some r => Qeq_bool q r
  | None => false
  end.

Fixpoint py_eqb (a b : value) {struct a} : bool :=
  match a with
  | VNone => match b with VNone => true | _ => false end
  | VBool x => num_eqb (inject_Z (Z.b2z x)) b
  | VInt z => num_eqb (inject_Z z) b
  | VFloat q => num_eqb q b
  | VStr s => match b with VStr t => String.eqb s t | _ => false end
  | VList l =>
      match b with
      | VList m =>
          (fix all2 (l m : list value) {struct l} : bool :=
             match l, m with
             | [], [] => true
             | x :: l', y :: m' => py_eqb x y && all2 l' m'
             | _, _ => false
             end) l m
      | _ => false
      end
  | VDict d =>
      match b with
      | VDict e =>
          Nat.eqb (List.length d) (List.length e)
          && (fix sub (d : dict) {struct d} : bool :=
                match d with
                | [] => true
                | (k, x) :: d' =>
                    match lookup k e with
                    | Some y => py_eqb x y
                    | None => false
                    end && sub d'
                end) d
      | _ => false
      end
  end.

(** Iteration, as [for x in v] and [str.join] do it. *)
Definition chars (s : string) : list value :=
  map (fun c => VStr (String c "")) (list_ascii_of_string s).

Definition py_iter (v : value) : pyresult (list value) :=
  match v with
  | VList l => Ok l
  | VStr s => Ok (chars s)
  | VDict d => Ok (map (fun kv => VStr (fst kv)) d)
  | _ => Raise TypeError
  end.

(** Every item of a [join] must be a [str]. *)
Fixpoint all_str (l : list value) : pyresult (list string) :=
  match l with
  | [] => Ok []
  | VStr s :: l' => r <- all_str l' ;; Ok (s :: r)
  | _ :: _ => Raise TypeError
  end.

Definition py_join (sep : string) (v : value) : pyresult string :=
  items <- py_iter v ;;
  parts <- all_str items ;;
  Ok (join sep parts).

(** [s * n] *)
Fixpoint py_mul (s : string) (n : nat) : string :=
  match n with
  | O => ""
  | S n' => (s ++ py_mul s n')%string
  end.

(** ** Characters

    A character is a code point; [ascii] covers the code points below 256.
    The classes are the ones Python 3 uses on [str]: [str.strip] and the
    pattern [\s] test [Py_UNICODE_ISSPACE], [\w] is alphanumeric or [_]. *)

Definition code (c : ascii) : N := N_of_ascii c.

Definition between (lo hi : N) (c : ascii) : bool :=
  (lo <=? code c)%N && (code c <=? hi)%N.

Definition is_space (c : ascii) : bool :=
  between 9 13 c || between 28 32 c
  || (code c =? 133)%N || (code c =? 160)%N.

Definition is_word (c : ascii) : bool :=
  between 48 57 c || between 65 90 c || between 97 122 c || (code c =? 95)%N
  || (code c =? 170)%N || (code c =? 178)%N || (code c =? 179)%N
  || (code c =? 181)%N || (code c =? 185)%N || (code c =? 186)%N
  || between 188 190 c
  || between 192 214 c || between 216 246 c || between 248 255 c.

(** The class [[A-Z0-9]]. *)
Definition is_upper_alnum (c : ascii) : bool :=
  between 65 90 c || between 48 57 c.

Definition newline : string := String (ascii_of_nat 10) "".

Fixpoint lstrip (s : string) : string :=
  match s with
  | "" => ""
  | String c s' => if is_space c then lstrip s' else s
  end.

Fixpoint rstrip (s : string) : string :=
  match s with
  | "" => ""
  | String c s' =>
      let r := rstrip s' in
      if is_space c && String.eqb r "" then "" else String c r
  end.

(** [s.strip()] *)
Definition strip (s : string) : string := rstrip (lstrip s).

(** [re.sub(cls, '', s)] for a one-character class [cls]: every character of
    the class goes. *)
Fixpoint re_sub_class (cls : ascii -> bool) (s : string) : string :=
  match s with
  | "" => ""
  | String c s' =>
      if cls c then re_sub_class cls s' else String c (re_sub_class cls s')
  end.

(** [s.replace(a, b)] for single characters. *)
Fixpoint replace_char (a b : ascii) (s : string) : string :=
  match s with
  | "" => ""
  | String c s' =>
      String (if Ascii.eqb c a then b else c) (replace_char a b s')
  end.

(** [s[:n]] *)
Fixpoint slice_to (n : nat) (s : string) : string :=
  match n, s with
  | S n', String c s' => String c (slice_to n' s')
  | _, _ => ""
  end.

(** [cls{n}] anchored at the head of [s]: the matched text. *)
Fixpoint match_class_n (cls : ascii -> bool) (n : nat) (s : string) : option string :=
  match n with
  | O => Some ""
  | S n' =>
      match s with
      | "" => None
      | String c s' =>
          if cls c then option_map (String c) (match_class_n cls n' s') else None
      end
  end.

(** [re.search] for the pattern [(cls{n})]: the match at the leftmost
    position that has one, group 1 being the whole match. *)
Fixpoint re_search_class_n (cls : ascii -> bool) (n : nat) (s : string) : option string :=
  match match_class_n cls n s with
  | Some m => Some m
  | None =>
      match s with
      | "" => None
      | String _ s' => re_search_class_n cls n s'
      end
  end.

(** [needle in haystack] on strings. *)
Fixpoint is_infix (needle haystack : string) : bool :=
  prefix needle haystack
  || match haystack with
     | "" => false
     | String _ h' => is_infix needle h'
     end.

(** ** Format fields *)

Fixpoint zeros (n : nat) : string :=
  match n with
  | O => ""
  | S n' => String "0" (zeros n')
  end.

(** [f"{z:0wd}"]: the sign first, then zeros up to width [w]. *)
Definition fmt_0d (w : nat) (z : Z) : string :=
  if z <? 0 then
    let digits := str_of_Z (- z) in
    ("-" ++ zeros (w - 1 - String.length digits) ++ digits)%string
  else
    let digits := str_of_Z z in
    (zeros (w - String.length digits) ++ digits)%string.

(** ** The script *)

Definition API_URL : string := "https://api.fireflies.ai/graphql".

Definition TRANSCRIPT_QUERY : string := "
query GetTranscriptContent($id: String!) {
  transcript(id: $id) {
    title
    id
    transcript_url
    duration
    date
    participants
    sentences {
      text
      speaker_id
      speaker_name
      start_time
      end_time
    }
    summary {
      keywords
      action_items
      overview
      shorthand_bullet
    }
  }
}
".

(** An HTTP response as [requests] hands it over: the status and the body as
    [response.json()] decodes it ([None] when the body is not JSON). *)
Record response : Type := {
  status_code : Z;
  json_body : option value
}.

(** [response.raise_for_status()] raises on 4xx and 5xx. *)
Definition raise_for_status (r : response) : pyresult unit :=
  if (400 <=? status_code r) && (status_code r <? 600)
  then Raise (HTTPError (status_code r))
  else Ok tt.

Definition response_json (r : response) : pyresult value :=
  match json_body r with
  | Some v => Ok v
  | None => Raise JSONDecodeError
  end.

(** [k in v] for a string [k]. *)
Definition py_contains (k : string) (v : value) : pyresult bool :=
  match v with
  | VDict d => Ok (match lookup k d with Some _ => true | None => false end)
  | VList l => Ok (existsb (py_eqb (VStr k)) l)
  | VStr s => Ok (is_infix k s)
  | _ => Raise TypeError
  end.

(** [v[k]] for a string [k]. *)
Definition py_getitem (v : value) (k : string) : pyresult value :=
  match v with
  | VDict d =>
      match lookup k d with
      | Some x => Ok x
      | None => Raise (KeyError k)
      end
  | _ => Raise TypeError
  end.

Module FirefliesClient.

(** The session is the network: [post url payload] answers with a response
    or raises a transport error.  The headers, the key included, are part of
    the session. *)
Definition session := string -> value -> pyresult response.

(** The client after construction: the key, and the headers the constructor
    puts on the session on top of the defaults of [requests]. *)
Record client : Type := {
  api_key : value;
  session_headers : list (string * string)
}.

Definition __init__ (rt : Runtime) (key : value) : pyresult client :=
  if negb (truthy key) then Raise (ValueError "API key is required")
  else
    Ok {| api_key := key;
          session_headers :=
            [("Authorization", ("Bearer " ++ py_str rt key)%string);
             ("Content-Type", "application/json")] |}.

Definition get_transcript (rt : Runtime) (post : session) (transcript_id : string)
  : pyresult value :=
  let payload :=
    VDict [("query", VStr TRANSCRIPT_QUERY);
           ("variables", VDict [("id", VStr transcript_id)])] in
  response <- post API_URL payload ;;
  _ <- raise_for_status response ;;
  data <- response_json response ;;
  has_errors <- py_contains "errors" data ;;
  if has_errors then
    errors <- py_getitem data "errors" ;;
    Raise (Exception ("GraphQL Error: " ++ py_str rt errors))
  else
    Ok data.

End FirefliesClient.

Module TranscriptFormatter.

Definition format_timestamp (seconds : value) : pyresult string :=
  n <- as_number seconds ;;
  let minutes := py_int (py_floordiv n 60) in
  let secs := py_int (py_mod n 60) in
  Ok ("[" ++ fmt_0d 2 minutes ++ ":" ++ fmt_0d 2 secs ++ "]")%string.

Definition format_duration (seconds : value) : pyresult string :=
  n <- as_number seconds ;;
  let hours := py_int (py_floordiv n 3600) in
  let minutes := py_int (py_floordiv (py_mod n 3600) 60) in
  let secs := py_int (py_mod n 60) in
  if 0 <? hours then
    Ok (str_of_Z hours ++ "h " ++ str_of_Z minutes ++ "m " ++ str_of_Z secs ++ "s")%string
  else if 0 <? minutes then
    Ok (str_of_Z minutes ++ "m " ++ str_of_Z secs ++ "s")%string
  else
    Ok (str_of_Z secs ++ "s")%string.

(** [datetime.fromtimestamp(date_ts / 1000).strftime(...)] *)
Definition date_string (rt : Runtime) (date_ts : value) : pyresult string :=
  n <- as_number date_ts ;;
  match local_strftime rt (number_Q n / 1000) with
  | Some s => Ok s
  | None => Raise PlatformDateError
  end.

(** [lines] is a Python list: [append] takes any object, and only the
    final [join] insists on strings. *)
Definition _add_header (rt : Runtime) (lines : list value) (transcript : value)
  : pyresult (list value) :=
  let lines := lines ++ [VStr (py_mul "=" 80)] in
  title <- py_get transcript "title" (VStr "N/A") ;;
  let lines := lines ++ [VStr ("TITLE: " ++ py_str rt title)] in
  id <- py_get transcript "id" (VStr "N/A") ;;
  let lines := lines ++ [VStr ("ID: " ++ py_str rt id)] in
  duration <- py_get transcript "duration" (VInt 0) ;;
  dur <- format_duration duration ;;
  let lines := lines ++ [VStr ("DURATION: " ++ dur)] in
  date_ts <- py_get transcript "date" VNone ;;
  lines <- (if truthy date_ts then
              date_str <- date_string rt date_ts ;;
              Ok (lines ++ [VStr ("DATE: " ++ date_str)])
            else Ok lines) ;;
  participants <- py_get transcript "participants" (VList []) ;;
  lines <- (if truthy participants then
              joined <- py_join ", " participants ;;
              Ok (lines ++ [VStr ("PARTICIPANTS: " ++ joined)])
            else Ok lines) ;;
  Ok (lines ++ [VStr (py_mul "=" 80); VStr ""]).

Definition _add_summary (rt : Runtime) (lines : list value) (summary : value)
  : pyresult (list value) :=
  if negb (truthy summary) then Ok lines else
  overview <- py_get summary "overview" VNone ;;
  let lines :=
    if truthy overview
    then lines ++ [VStr "--- SUMMARY ---"; overview; VStr ""]
    else lines in
  keywords <- py_get summary "keywords" VNone ;;
  lines <- (if truthy keywords then
              match keywords with
              | VList _ =>
                  joined <- py_join ", " keywords ;;
                  Ok (lines ++ [VStr "--- KEYWORDS ---"; VStr joined; VStr ""])
              | _ =>
                  Ok (lines ++ [VStr "--- KEYWORDS ---";
                                VStr (py_str rt keywords); VStr ""])
              end
            else Ok lines) ;;
  action_items <- py_get summary "action_items" VNone ;;
  if truthy action_items then
    let lines := lines ++ [VStr "--- ACTION ITEMS ---"] in
    match action_items with
    | VStr s => Ok (lines ++ [VStr (strip s)] ++ [VStr ""])
    | _ =>
        items <- py_iter action_items ;;
        Ok (lines ++ map (fun item => VStr ("  - " ++ py_str rt item)) items
                  ++ [VStr ""])
    end
  else Ok lines.

(** [sentence.get("speaker_name") or sentence.get("speaker_id", "Unknown")] *)
Definition effective_speaker (sentence : value) : pyresult value :=
  name <- py_get sentence "speaker_name" VNone ;;
  if truthy name then Ok name
  else py_get sentence "speaker_id" (VStr "Unknown").

(** One turn of the loop over the sentences; the state is the list of
    lines and [current_speaker]. *)
Definition sentence_step (rt : Runtime) (st : list value * value) (sentence : value)
  : pyresult (list value * value) :=
  let '(lines, current_speaker) := st in
  speaker <- effective_speaker sentence ;;
  text <- py_get sentence "text" (VStr "") ;;
  start_time <- py_get sentence "start_time" (VInt 0) ;;
  let '(lines, current_speaker) :=
    if negb (py_eqb speaker current_speaker)
    then (lines ++ [VStr ""; VStr ("--- " ++ py_str rt speaker ++ " ---")], speaker)
    else (lines, current_speaker) in
  timestamp <- format_timestamp start_time ;;
  Ok (lines ++ [VStr (timestamp ++ " " ++ py_str rt text)], current_speaker).

Fixpoint sentence_loop (rt : Runtime) (st : list value * value) (sentences : list value)
  : pyresult (list value * value) :=
  match sentences with
  | [] => Ok st
  | sentence :: rest =>
      st' <- sentence_step rt st sentence ;;
      sentence_loop rt st' rest
  end.

Definition _add_sentences (rt : Runtime) (lines : list value) (sentences : value)
  : pyresult (list value) :=
  if negb (truthy sentences) then Ok lines else
  let lines := lines ++ [VStr (py_mul "=" 80); VStr "FULL TRANSCRIPT";
                         VStr (py_mul "=" 80); VStr ""] in
  items <- py_iter sentences ;;
  st <- sentence_loop rt (lines, VNone) items ;;
  Ok (fst st).

Definition format (rt : Runtime) (data : value) : pyresult string :=
  envelope <- py_get data "data" (VDict []) ;;
  transcript <- py_get envelope "transcript" VNone ;;
  if negb (truthy transcript) then
    Raise (ValueError "Transcript not found in response")
  else
    lines <- _add_header rt [] transcript ;;
    summary <- py_get transcript "summary" (VDict []) ;;
    lines <- _add_summary rt lines summary ;;
    sentences <- py_get transcript "sentences" (VList []) ;;
    lines <- _add_sentences rt lines sentences ;;
    py_join newline (VList lines).

End TranscriptFormatter.

Definition extract_transcript_id (url_or_id : string) : string :=
  match re_search_class_n is_upper_alnum 26 url_or_id with
  | Some m => m
  | None => url_or_id
  end.

(** The part of [main] that names the output files. *)
Module Main.

(** The class [[^\w\s-]]. *)
Definition not_word_space_hyphen (c : ascii) : bool :=
  negb (is_word c || is_space c || Ascii.eqb c "-").

(** [re.sub(r'[^\w\s-]', '', title).strip().replace(' ', '_')[:50]] *)
Definition safe_title (transcript_title : string) : string :=
  slice_to 50
    (replace_char " " "_" (strip (re_sub_class not_word_space_hyphen transcript_title))).

Definition base_filename (transcript_title transcript_id : string) : string :=
  (safe_title transcript_title ++ "_" ++ transcript_id)%string.

Definition json_name (transcript_title transcript_id : string) : string :=
  (base_filename transcript_title transcript_id ++ ".json")%string.

Definition txt_name (transcript_title transcript_id : string) : string :=
  (base_filename transcript_title transcript_id ++ ".txt")%string.

(** [data.get("data", {}).get("transcript", {}).get("title", transcript_id)];
    [re.sub] then needs a string. *)
Definition transcript_title (data : value) (transcript_id : string) : pyresult string :=
  envelope <- py_get data "data" (VDict []) ;;
  transcript <- py_get envelope "transcript" (VDict []) ;;
  title <- py_get transcript "title" (VStr transcript_id) ;;
  match title with
  | VStr s => Ok s
  | _ => Raise TypeError
  end.

End Main.

(** A runtime for closed examples: its three services are crude, and the
    examples below never reach them. *)
Definition plain_runtime : Runtime := {|
  float_repr := fun q => (str_of_Z (Qfloor q) ++ ".0")%string;
  str_repr := fun s => ("'" ++ s ++ "'")%string;
  local_strftime := fun _ => None
|}.


(** A small response: one sentence, no date, no participants, no summary. *)
Definition standup_transcript : value :=
  VDict [("title", VStr "Standup"); ("id", VStr "ABCDEFGHIJKLMNOPQRSTUVWXYZ");
         ("duration", VInt 125); ("date", VNone); ("participants", VList []);
         ("sentences",
          VList [VDict [("text", VStr "Hi"); ("speaker_name", VStr "Alice");
                        ("start_time", VInt 0)]]);
         ("summary", VDict [])].

Definition standup_response : value :=
  VDict [("data", VDict [("transcript", standup_transcript)])].

(** ** Vocabulary of the statements *)

Import TranscriptFormatter.



(** The window of [n] characters of [s] at position [i], when [s] has that
    many from there on and all of them are in the class. *)
Definition run_at (cls : ascii -> bool) (n i : nat) (s : string) : option string :=
  let w := substring i n s in
  if Nat.eqb (String.length w) n && forallb cls (list_ascii_of_string w)
  then Some w
  else None.

(** Every character of [s] passes the test [p]. *)
Fixpoint all_chars (p : ascii -> bool) (s : string) : bool :=
  match s with
  | "" => true
  | String c s' => p c && all_chars p s'
  end.

(** The characters of [s] that pass [p], in order. *)
Fixpoint keep_chars (p : ascii -> bool) (s : string) : string :=
  match s with
  | "" => ""
  | String c s' => if p c then String c (keep_chars p s') else keep_chars p s'
  end.

Definition starts_with_space (s : string) : bool :=
  match s with
  | "" => false
  | String c _ => is_space c
  end.

Fixpoint ends_with_space (s : string) : bool :=
  match s with
  | "" => false
  | String c "" => is_space c
  | String _ s' => ends_with_space s'
  end.

(** What a sanitized title may hold: [\w], [\s] and the hyphen. *)
Definition word_space_hyphen (c : ascii) : bool :=
  is_word c || is_space c || Ascii.eqb c "-".

(** What is left of it in a file name: no space character. *)
Definition sanitized (c : ascii) : bool :=
  word_space_hyphen c && negb (Ascii.eqb c " ").

(** The dict without the key [k], and with [k] bound to [v] where it was
    bound. *)
Definition dict_remove (k : string) (d : dict) : dict :=
  filter (fun kv => negb (String.eqb k (fst kv))) d.

Definition dict_set (k : string) (v : value) (d : dict) : dict :=
  map (fun kv => if String.eqb k (fst kv) then (fst kv, v) else kv) d.

(** A line of the report that starts with the given label. *)
Definition line_starts (label : string) (line : value) : bool :=
  match line with
  | VStr s => prefix label s
  | _ => false
  end.

(** The value [o.get(k, default)] has on a dict. *)
Definition field (d : dict) (k : string) (default : value) : value :=
  match lookup k d with
  | Some v => v
  | None => default
  end.

(** The body [get_transcript] posts for an identifier. *)
Definition query_payload (transcript_id : string) : value :=
  VDict [("query", VStr TRANSCRIPT_QUERY);
         ("variables", VDict [("id", VStr transcript_id)])].

(** The header line of a speaker. *)
Definition speaker_header (rt : Runtime) (speaker : value) : value :=
  VStr ("--- " ++ py_str rt speaker ++ " ---").

(** The line of a sentence: its timestamp and its text. *)
Definition sentence_line (rt : Runtime) (sentence : value) : pyresult value :=
  text <- py_get sentence "text" (VStr "") ;;
  start_time <- py_get sentence "start_time" (VInt 0) ;;
  timestamp <- format_timestamp start_time ;;
  Ok (VStr (timestamp ++ " " ++ py_str rt text)).




Definition transcript_banner : list value :=
  [VStr (py_mul "=" 80); VStr "FULL TRANSCRIPT"; VStr (py_mul "=" 80); VStr ""].



(** A run that does not end in a [ValueError]. *)
Definition quiet {A : Type} (r : pyresult A) : Prop :=
  forall msg, r <> Raise (ValueError msg).

(** The shape of a transcript that [format] renders: the types of the data
    model, with a falsy value allowed wherever the code tests for one. *)
Definition is_number (v : value) : bool :=
  match v with
  | VBool _ | VInt _ | VFloat _ => true
  | _ => false
  end.

Definition is_str (v : value) : bool :=
  match v with
  | VStr _ => true
  | _ => false
  end.







Definition sentence_ok (v : value) : bool :=
  match v with
  | VDict d => is_number (field d "start_time" (VInt 0))
  | _ => false
  end.



(** Whether the last character of [s] is in the class; the empty string has
    none. *)
Fixpoint last_char_in (cls : ascii -> bool) (s : string) : bool :=
  match s with
  | "" => false
  | String c "" => cls c
  | String _ s' => last_char_in cls s'
  end.

(** The response that carries the transcript [t]. *)
Definition response_of (t : value) : value :=
  VDict [("data", VDict [("transcript", t)])].

Definition is_dict (v : value) : bool :=
  match v with
  | VDict _ => true
  | _ => false
  end.

(** The fields of a transcript that may be null. *)
Definition optional_fields : list string :=
  ["date"; "participants"; "summary"; "sentences"].

(** Characters that separate or qualify the parts of a path, and the space. *)
Definition path_chars : list ascii := ["/"; "\"; "."; ":"; " "]%char.

(** ** The entry point

    [main] acts on the world: it prints, sends one request and saves files.
    What it does is recorded as a trace of events, and what the world
    answers is taken from a [Platform]. *)

Inductive output_format : Type :=
| txt
| json
| both.

(** The parsed command line. *)
Record Args : Type := {
  arg_transcript : string;
  arg_output : string;
  arg_format : output_format
}.

Inductive event : Type :=
| Stdout (line : string)
| Stderr (line : string)
| Request (headers : list (string * string)) (url : string) (payload : value)
| Save (path content : string).

(** The world: the interpreter's services, the network behind a session
    with given headers, [json.dumps(data, ensure_ascii=False, indent=2)],
    [str(Path(dir) / name)], the file system ([mkdir] and [write_text] of
    [save_output], which may depend on what happened before and answer with
    an error), [str(e)] of an exception without a message of the script's
    own, and [e.response.text]. *)
Record Platform : Type := {
  runtime : Runtime;
  network : list (string * string) -> FirefliesClient.session;
  json_dumps : value -> string;
  path_join : string -> string -> string;
  file_system : list event -> string -> string -> option pyexc;
  exc_message : pyexc -> string;
  response_text : pyexc -> option string
}.

(** A computation that extends the trace and returns or raises. *)
Definition io (A : Type) : Type := list event -> list event * pyresult A.

Definition io_ret {A : Type} (a : A) : io A := fun trace => (trace, Ok a).

Definition io_bind {A B : Type} (c : io A) (k : A -> io B) : io B :=
  fun trace =>
    match c trace with
    | (trace', Ok a) => k a trace'
    | (trace', Raise e) => (trace', Raise e)
    end.

Notation "x <~ c ;; k" := (io_bind c (fun x => k))
  (at level 61, c at next level, right associativity).

Definition emit (e : event) : io unit := fun trace => (trace ++ [e], Ok tt).

Definition lift {A : Type} (r : pyresult A) : io A := fun trace => (trace, r).

Definition save_output (p : Platform) (content filepath : string) : io unit :=
  fun trace =>
    (trace ++ [Save filepath content],
     match file_system p trace filepath content with
     | None => Ok tt
     | Some e => Raise e
     end).

(** [args.format in ("json", "both")] and [args.format in ("txt", "both")] *)
Definition wants_json (f : output_format) : bool :=
  match f with
  | json | both => true
  | txt => false
  end.

Definition wants_txt (f : output_format) : bool :=
  match f with
  | txt | both => true
  | json => false
  end.

(** [str(e)] *)
Definition py_exc_str (p : Platform) (e : pyexc) : string :=
  match e with
  | ValueError msg | Exception msg => msg
  | _ => exc_message p e
  end.

(** The body of the [try]. *)
Definition main_try (p : Platform) (args : Args) (key : value) (transcript_id : string)
  : io unit :=
  client <~ lift (FirefliesClient.__init__ (runtime p) key) ;;
  _ <~ emit (Request (FirefliesClient.session_headers client) API_URL
               (query_payload transcript_id)) ;;
  data <~ lift (FirefliesClient.get_transcript (runtime p)
                  (network p (FirefliesClient.session_headers client)) transcript_id) ;;
  transcript_title <~ lift (Main.transcript_title data transcript_id) ;;
  _ <~ (if wants_json (arg_format args) then
          let json_path :=
            path_join p (arg_output args) (Main.json_name transcript_title transcript_id) in
          _ <~ save_output p (json_dumps p data) json_path ;;
          emit (Stdout ("Saved: " ++ json_path))
        else io_ret tt) ;;
  _ <~ (if wants_txt (arg_format args) then
          formatted <~ lift (format (runtime p) data) ;;
          let txt_path :=
            path_join p (arg_output args) (Main.txt_name transcript_title transcript_id) in
          _ <~ save_output p formatted txt_path ;;
          emit (Stdout ("Saved: " ++ txt_path))
        else io_ret tt) ;;
  emit (Stdout "Done.").

(** The two [except] clauses. *)
Definition handle (p : Platform) (e : pyexc) : list event :=
  match e with
  | HTTPError _ =>
      Stderr ("HTTP Error: " ++ py_exc_str p e)
      :: match response_text p e with
         | Some text => [Stderr ("Response: " ++ text)]
         | None => []
         end
  | _ => [Stderr ("Error: " ++ py_exc_str p e)]
  end.

(** [main]: the trace and the exit code, for the parsed arguments and the
    value of FIREFLIES_API_KEY in the environment. *)
Definition main (p : Platform) (args : Args) (env_key : option string)
  : list event * Z :=
  let key := match env_key with Some s => VStr s | None => VNone end in
  if negb (truthy key) then
    ([Stderr "Error: FIREFLIES_API_KEY environment variable is not set"], 1)
  else
    let transcript_id := extract_transcript_id (arg_transcript args) in
    match main_try p args key transcript_id
            [Stdout ("Downloading transcript: " ++ transcript_id)] with
    | (trace, Ok _) => (trace, 0)
    | (trace, Raise e) => (trace ++ handle p e, 1)
    end.

(** A platform for closed examples: the service answers every request with
    the same response and every file can be saved. *)
Definition plain_platform (r : response) : Platform := {|
  runtime := plain_runtime;
  network := fun _ _ _ => Ok r;
  json_dumps := fun v => py_repr plain_runtime v;
  path_join := fun dir name => (dir ++ "/" ++ name)%string;
  file_system := fun _ _ _ => None;
  exc_message := fun _ => "error";
  response_text := fun _ => None
|}.

Definition is_request (e : event) : bool :=
  match e with
  | Request _ _ _ => true
  | _ => false
  end.

Definition is_save (e : event) : bool :=
  match e with
  | Save _ _ => true
  | _ => false
  end.

Definition is_stderr (e : event) : bool :=
  match e with
  | Stderr _ => true
  | _ => false
  end.

(** The request [main] sends for a key and an input. *)
Definition the_request (key input : string) : event :=
  Request [("Authorization", ("Bearer " ++ key)%string);
           ("Content-Type", "application/json")]
          API_URL (query_payload (extract_transcript_id input)).

(** How [main] starts once it has a key: the announcement and the request. *)
Definition opening (key input : string) : list event :=
  [Stdout ("Downloading transcript: " ++ extract_transcript_id input);
   the_request key input].

(** What the service answers to that request. *)
Definition fetched (p : Platform) (key input : string) : pyresult value :=
  FirefliesClient.get_transcript (runtime p)
    (network p [("Authorization", ("Bearer " ++ key)%string);
                ("Content-Type", "application/json")])
    (extract_transcript_id input).

(** What [main] does with the response once it is in hand. *)
Definition deliver (p : Platform) (args : Args) (transcript_id : string) (data : value)
  : io unit :=
  transcript_title <~ lift (Main.transcript_title data transcript_id) ;;
  _ <~ (if wants_json (arg_format args) then
          let json_path :=
            path_join p (arg_output args) (Main.json_name transcript_title transcript_id) in
          _ <~ save_output p (json_dumps p data) json_path ;;
          emit (Stdout ("Saved: " ++ json_path))
        else io_ret tt) ;;
  _ <~ (if wants_txt (arg_format args) then
          formatted <~ lift (format (runtime p) data) ;;
          let txt_path :=
            path_join p (arg_output args) (Main.txt_name transcript_title transcript_id) in
          _ <~ save_output p formatted txt_path ;;
          emit (Stdout ("Saved: " ++ txt_path))
        else io_ret tt) ;;
  emit (Stdout "Done.").

(** A computation that adds events none of which is a request or goes to
    the error stream, and at most [k] of which are saves. *)
Definition adds_saves {A : Type} (k : nat) (c : io A) : Prop :=
  forall trace, exists events,
    fst (c trace) = trace ++ events /\
    filter is_request events = [] /\
    filter is_stderr events = [] /\
    (List.length (filter is_save events) <= k)%nat.

(** The events of a file that is saved. *)
Definition saved (path content : string) : list event :=
  [Save path content; Stdout ("Saved: " ++ path)].

(** The keys the formatter reads in a transcript, in its summary and in a
    sentence. *)
Definition transcript_fields : list string :=
  ["title"; "id"; "duration"; "date"; "participants"; "summary"; "sentences"].

Definition summary_fields : list string := ["overview"; "keywords"; "action_items"].

Definition sentence_fields : list string :=
  ["speaker_name"; "speaker_id"; "text"; "start_time"].

Definition reads (fields : list string) (k : string) : bool :=
  existsb (String.eqb k) fields.

(** A value without the key [k] if it is an object, as it is otherwise. *)
Definition without_key (k : string) (v : value) : value :=
  match v with
  | VDict d => VDict (dict_remove k d)
  | _ => v
  end.

(** What the network answers to the request of [main]. *)
Definition answer (p : Platform) (key input : string) : pyresult response :=
  network p [("Authorization", ("Bearer " ++ key)%string);
             ("Content-Type", "application/json")]
    API_URL (query_payload (extract_transcript_id input)).

(** * Properties *)

(** ** Arithmetic of [//], [%] and [int] *)

Section Arithmetic.

Local Open Scope Q_scope.











End Arithmetic.

(** ** Decimal fields *)








(** ** Duration and timestamp *)





(** ** Identifier extraction *)

Section Search.

Variable cls : ascii -> bool.
Variable n : nat.

Lemma run_at_shift (i : nat) (c : ascii) (s : string) :
  run_at cls n (S i) (String c s) = run_at cls n i s.
Proof. reflexivity. Qed.

Lemma run_at_empty (i : nat) : run_at cls n i "" = run_at cls n 0 "".
Proof. unfold run_at. destruct i, n; reflexivity. Qed.

Lemma re_search_found (s m : string) :
  (forall t, match_class_n cls n t = run_at cls n 0 t) ->
  re_search_class_n cls n s = Some m ->
  exists i, run_at cls n i s = Some m /\
            forall j, (j < i)%nat -> run_at cls n j s = None.
Proof.
  intros Hhead. induction s as [|c s IH]; simpl; rewrite Hhead.
  - intros H. exists 0%nat. split; [|intros j Hj; lia].
    destruct (run_at cls n 0 ""); [exact H | discriminate].
  - destruct (run_at cls n 0 (String c s)) eqn:E.
    + intros H. exists 0%nat. split; [congruence | intros j Hj; lia].
    + intros H. destruct (IH H) as (i & Hi & Hmin).
      exists (S i). split; [rewrite run_at_shift; exact Hi|].
      intros [|j] Hj; [exact E|]. rewrite run_at_shift. apply Hmin. lia.
Qed.

Lemma re_search_none (s : string) :
  (forall t, match_class_n cls n t = run_at cls n 0 t) ->
  re_search_class_n cls n s = None ->
  forall i, run_at cls n i s = None.
Proof.
  intros Hhead. induction s as [|c s IH]; simpl; rewrite Hhead.
  - intros H i. rewrite run_at_empty.
    destruct (run_at cls n 0 ""); [discriminate | reflexivity].
  - destruct (run_at cls n 0 (String c s)) eqn:E; [discriminate|].
    intros H [|i]; [exact E|]. rewrite run_at_shift. apply IH, H.
Qed.

End Search.

Lemma run_at_some (cls : ascii -> bool) (n i : nat) (s m : string) :
  run_at cls n i s = Some m ->
  m = substring i n s /\ String.length m = n /\ all_chars cls m = true.
Proof.
  unfold run_at.
  destruct (Nat.eqb (String.length (substring i n s)) n) eqn:El; [|discriminate].
  destruct (forallb cls (list_ascii_of_string (substring i n s))) eqn:Ec; [|discriminate].
  simpl. intros H. injection H as <-. apply Nat.eqb_eq in El.
  repeat split; try assumption.
  revert Ec. generalize (substring i n s) as w.
  induction w as [|c w IH]; simpl; [reflexivity|].
  intros H. apply andb_true_iff in H as [-> H]. apply IH, H.
Qed.

Lemma match_class_n_head (cls : ascii -> bool) (n : nat) (s : string) :
  match_class_n cls n s = run_at cls n 0 s.
Proof.
  revert s. induction n as [|n IH]; intros s.
  - destruct s; reflexivity.
  - destruct s as [|c s]; [reflexivity|].
    simpl. rewrite IH. unfold run_at. simpl.
    destruct (cls c); simpl.
    + destruct (Nat.eqb (String.length (substring 0 n s)) n
                && forallb cls (list_ascii_of_string (substring 0 n s)));
        reflexivity.
    + rewrite andb_false_r. reflexivity.
Qed.

(** C7.  [extract_transcript_id] returns the leftmost window of 26
    consecutive characters that are all uppercase letters or digits, and the
    input itself when the input has no such window; an identifier inside a
    URL is extracted, an input without one passes through. *)
Theorem extract_transcript_id_first_run :
  (forall s : string,
      (exists (i : nat) (m : string),
          extract_transcript_id s = m /\
          m = substring i 26 s /\
          String.length m = 26%nat /\
          all_chars is_upper_alnum m = true /\
          (forall j, (j < i)%nat -> run_at is_upper_alnum 26 j s = None))
      \/ ((forall i, run_at is_upper_alnum 26 i s = None) /\
          extract_transcript_id s = s))
  /\ extract_transcript_id
       "https://app.fireflies.ai/view/Weekly-Sync::01HZXABCDEFGHJKMNPQRSTVWXY?ref=mail"
     = "01HZXABCDEFGHJKMNPQRSTVWXY"
  /\ extract_transcript_id "01HZXABCDEFGHJKMNPQRSTVWXY" = "01HZXABCDEFGHJKMNPQRSTVWXY"
  /\ extract_transcript_id "weekly-sync-notes" = "weekly-sync-notes"
  /\ extract_transcript_id "01HZXABCDEFGHJKMNPQRSTVWXY99" = "01HZXABCDEFGHJKMNPQRSTVWXY".
Proof.
  split; [|repeat split; reflexivity].
  intros s. unfold extract_transcript_id.
  destruct (re_search_class_n is_upper_alnum 26 s) as [m|] eqn:E.
  - left.
    destruct (re_search_found _ _ s m (match_class_n_head _ _) E) as (i & Hi & Hmin).
    destruct (run_at_some _ _ _ _ _ Hi) as (Hsub & Hlen & Hall).
    exists i, m. auto.
  - right. split; [|reflexivity].
    apply re_search_none; [apply match_class_n_head | exact E].
Qed.

Lemma extract_transcript_id_first_run_witness :
  run_at is_upper_alnum 26 0 "v/01HZXABCDEFGHJKMNPQRSTVWXY" = None /\
  run_at is_upper_alnum 26 1 "v/01HZXABCDEFGHJKMNPQRSTVWXY" = None /\
  extract_transcript_id "v/01HZXABCDEFGHJKMNPQRSTVWXY"
  = substring 2 26 "v/01HZXABCDEFGHJKMNPQRSTVWXY".
Proof.
  destruct (proj1 extract_transcript_id_first_run "v/01HZXABCDEFGHJKMNPQRSTVWXY")
    as [(i & m & Hm & Hsub & Hlen & Hall & Hmin) | (Hnone & _)].
  - destruct i as [|[|[|i]]].
    + rewrite Hsub in Hall. vm_compute in Hall. discriminate Hall.
    + rewrite Hsub in Hall. vm_compute in Hall. discriminate Hall.
    + split; [apply Hmin; lia|]. split; [apply Hmin; lia|]. congruence.
    + assert (H2 : (2 < S (S (S i)))%nat) by lia.
      specialize (Hmin 2%nat H2). vm_compute in Hmin. discriminate Hmin.
  - specialize (Hnone 2%nat). vm_compute in Hnone. discriminate Hnone.
Defined.

(** ** File names *)

Lemma all_chars_app (p : ascii -> bool) (a b : string) :
  all_chars p (a ++ b) = all_chars p a && all_chars p b.
Proof.
  induction a as [|c a IH]; simpl; [reflexivity|].
  rewrite IH, andb_assoc. reflexivity.
Qed.

Lemma lstrip_spec (s : string) :
  exists l, s = (l ++ lstrip s)%string /\ all_chars is_space l = true /\
            starts_with_space (lstrip s) = false.
Proof.
  induction s as [|c s (l & Hl & Hsp & Hhead)]; simpl.
  - exists "". auto.
  - destruct (is_space c) eqn:E.
    + exists (String c l). simpl. rewrite E, Hsp. repeat split; congruence.
    + exists "". simpl. auto.
Qed.

Lemma rstrip_spec (s : string) :
  exists r, s = (rstrip s ++ r)%string /\ all_chars is_space r = true /\
            ends_with_space (rstrip s) = false.
Proof.
  induction s as [|c s (r & Hr & Hsp & Hlast)]; simpl.
  - exists "". auto.
  - destruct (is_space c) eqn:E; simpl.
    + destruct (rstrip s) as [|c' s'] eqn:Es; simpl.
      * exists (String c r). simpl in *. rewrite E, Hsp. repeat split. congruence.
      * exists r. repeat split; try assumption. simpl in Hr. congruence.
    + exists r. repeat split; try assumption; [congruence|].
      destruct (rstrip s); simpl in *; [exact E | exact Hlast].
Qed.

Lemma rstrip_head (s : string) :
  starts_with_space s = false -> starts_with_space (rstrip s) = false.
Proof.
  destruct s as [|c s]; simpl; [reflexivity|]. intros E. rewrite E. simpl. exact E.
Qed.

(** [strip] cuts a run of whitespace off each end and leaves none there. *)
Lemma strip_spec (s : string) :
  exists l r, s = (l ++ strip s ++ r)%string /\
              all_chars is_space l = true /\ all_chars is_space r = true /\
              starts_with_space (strip s) = false /\
              ends_with_space (strip s) = false.
Proof.
  destruct (lstrip_spec s) as (l & Hl & Hlsp & Hhead).
  destruct (rstrip_spec (lstrip s)) as (r & Hr & Hrsp & Hlast).
  exists l, r. unfold strip. repeat split; try assumption.
  - rewrite <- Hr. exact Hl.
  - apply rstrip_head, Hhead.
Qed.

Lemma re_sub_class_keep (s : string) :
  re_sub_class Main.not_word_space_hyphen s = keep_chars word_space_hyphen s.
Proof.
  induction s as [|c s IH]; simpl; [reflexivity|].
  unfold Main.not_word_space_hyphen at 1. fold (word_space_hyphen c).
  destruct (word_space_hyphen c); simpl; congruence.
Qed.

Lemma keep_chars_all (p : ascii -> bool) (s : string) :
  all_chars p (keep_chars p s) = true.
Proof.
  induction s as [|c s IH]; simpl; [reflexivity|].
  destruct (p c) eqn:E; simpl; [rewrite E|]; exact IH.
Qed.

Lemma slice_to_length (n : nat) (s : string) : (String.length (slice_to n s) <= n)%nat.
Proof.
  revert s. induction n as [|n IH]; intros [|c s]; simpl; try lia.
  specialize (IH s). lia.
Qed.

Lemma slice_to_all (p : ascii -> bool) (n : nat) (s : string) :
  all_chars p s = true -> all_chars p (slice_to n s) = true.
Proof.
  revert s. induction n as [|n IH]; intros [|c s]; simpl; try reflexivity.
  intros H. apply andb_true_iff in H as [Hc Hs]. rewrite Hc. apply IH, Hs.
Qed.

Lemma replace_space_all (s : string) :
  all_chars word_space_hyphen s = true ->
  all_chars sanitized (replace_char " " "_" s) = true.
Proof.
  induction s as [|c s IH]; simpl; [reflexivity|].
  intros H. apply andb_true_iff in H as [Hc Hs]. rewrite (IH Hs), andb_true_r.
  unfold sanitized. destruct (Ascii.eqb c " ") eqn:E; [reflexivity|].
  rewrite Hc, E. reflexivity.
Qed.

(** C9, as the code has it.  The base file name is the sanitized title, an
    underscore and the transcript identifier, with ".json" and ".txt" for the
    two files.  The sanitized title keeps the word characters, whitespace and
    hyphens of the title, loses the whitespace at both ends, has every space
    character (and no other whitespace) turned into an underscore, and is cut
    to its first 50 characters. *)
Theorem base_filename_sanitized (title transcript_id : string) :
  exists l core r : string,
    keep_chars word_space_hyphen title = (l ++ core ++ r)%string /\
    all_chars is_space l = true /\ all_chars is_space r = true /\
    starts_with_space core = false /\ ends_with_space core = false /\
    Main.safe_title title = slice_to 50 (replace_char " " "_" core) /\
    (String.length (Main.safe_title title) <= 50)%nat /\
    all_chars sanitized (Main.safe_title title) = true /\
    Main.base_filename title transcript_id =
      (Main.safe_title title ++ "_" ++ transcript_id)%string /\
    Main.json_name title transcript_id =
      ((Main.safe_title title ++ "_" ++ transcript_id) ++ ".json")%string /\
    Main.txt_name title transcript_id =
      ((Main.safe_title title ++ "_" ++ transcript_id) ++ ".txt")%string.
Proof.
  destruct (strip_spec (keep_chars word_space_hyphen title))
    as (l & r & Hsplit & Hl & Hr & Hhead & Hlast).
  exists l, (strip (keep_chars word_space_hyphen title)), r.
  assert (Hsafe : Main.safe_title title =
                  slice_to 50 (replace_char " " "_"
                                 (strip (keep_chars word_space_hyphen title)))).
  { unfold Main.safe_title. rewrite re_sub_class_keep. reflexivity. }
  repeat split; try assumption; try reflexivity.
  - apply slice_to_length.
  - rewrite Hsafe. apply slice_to_all, replace_space_all.
    pose proof (keep_chars_all word_space_hyphen title) as Hall.
    rewrite Hsplit, !all_chars_app in Hall.
    apply andb_true_iff in Hall as [_ Hall].
    apply andb_true_iff in Hall as [Hall _]. exact Hall.
Qed.

(** C9 as stated fails: a tab inside the title is whitespace, and it is
    still there, not an underscore, in the file name. *)
Lemma safe_title_keeps_inner_tab :
  is_space "009" = true /\
  Main.safe_title (String "Q" (String "009" "A")) = String "Q" (String "009" "A") /\
  Main.base_filename (String "Q" (String "009" "A")) "ID"
  = String "Q" (String "009" "A_ID") /\
  Main.safe_title "Q A" = "Q_A".
Proof. repeat split; reflexivity. Qed.

(** ** Dicts *)

Lemma lookup_remove_other (k k0 : string) (d : dict) :
  String.eqb k0 k = false -> lookup k (dict_remove k0 d) = lookup k d.
Proof.
  intros Hk. induction d as [|[k' v] d IH]; simpl; [reflexivity|].
  destruct (String.eqb k0 k') eqn:E0; simpl.
  - apply String.eqb_eq in E0. subst k'.
    rewrite String.eqb_sym, Hk. exact IH.
  - rewrite IH. reflexivity.
Qed.

Lemma lookup_remove_same (k : string) (d : dict) : lookup k (dict_remove k d) = None.
Proof.
  induction d as [|[k' v] d IH]; simpl; [reflexivity|].
  destruct (String.eqb k k') eqn:E; simpl; [exact IH|]. rewrite E. exact IH.
Qed.

Lemma lookup_set_other (k k0 : string) (v : value) (d : dict) :
  String.eqb k0 k = false -> lookup k (dict_set k0 v d) = lookup k d.
Proof.
  intros Hk. induction d as [|[k' x] d IH]; simpl; [reflexivity|].
  destruct (String.eqb k0 k') eqn:E0; simpl.
  - apply String.eqb_eq in E0. subst k'.
    rewrite String.eqb_sym, Hk. exact IH.
  - rewrite IH. reflexivity.
Qed.

Lemma lookup_set_same (k : string) (v x : value) (d : dict) :
  lookup k d = Some x -> lookup k (dict_set k v d) = Some v.
Proof.
  induction d as [|[k' y] d IH]; simpl; [discriminate|].
  destruct (String.eqb k k') eqn:E; simpl; rewrite E; [reflexivity | exact IH].
Qed.

(** ** The header *)

Lemma bind_ok {A B : Type} (c : pyresult A) (k : A -> pyresult B) (b : B) :
  bind c k = Ok b -> exists a, c = Ok a /\ k a = Ok b.
Proof. destruct c as [a|e]; simpl; [eauto | discriminate]. Qed.

Lemma py_get_dict (d : dict) (k : string) (default : value) :
  py_get (VDict d) k default = Ok (field d k default).
Proof. unfold py_get, field. destruct (lookup k d); reflexivity. Qed.

Lemma field_remove_other (k k0 : string) (default : value) (d : dict) :
  String.eqb k0 k = false -> field (dict_remove k0 d) k default = field d k default.
Proof. intros H. unfold field. rewrite lookup_remove_other by exact H. reflexivity. Qed.

Lemma field_remove_same (k : string) (default : value) (d : dict) :
  field (dict_remove k d) k default = default.
Proof. unfold field. rewrite lookup_remove_same. reflexivity. Qed.

(** C10.  When the transcript's date is present but falsy, as the epoch 0
    is, [_add_header] does what it does for the transcript without the date
    field, and none of the lines it adds is a DATE line. *)
Theorem add_header_epoch_date :
  (forall (rt : Runtime) (lines : list value) (d : dict) (v : value),
      lookup "date" d = Some v ->
      truthy v = false ->
      _add_header rt lines (VDict d) = _add_header rt lines (VDict (dict_remove "date" d)) /\
      forall out, _add_header rt lines (VDict d) = Ok out ->
                  exists header, out = lines ++ header /\
                                 existsb (line_starts "DATE:") header = false)
  /\ truthy (VInt 0) = false /\ truthy (VFloat 0) = false.
Proof.
  split; [|split; reflexivity].
  intros rt lines d v Hdate Hv.
  unfold _add_header. rewrite !py_get_dict. cbn [bind].
  rewrite !(field_remove_other "title"), !(field_remove_other "id"),
    !(field_remove_other "duration"), !(field_remove_other "participants")
    by reflexivity.
  rewrite field_remove_same.
  assert (Hfield : field d "date" VNone = v) by (unfold field; rewrite Hdate; reflexivity).
  rewrite Hfield, Hv. cbn [truthy bind].
  split; [reflexivity|].
  intros out.
  destruct (format_duration (field d "duration" (VInt 0))) as [dur|e]; cbn [bind];
    [|discriminate].
  destruct (truthy (field d "participants" (VList []))); cbn [bind].
  - destruct (py_join ", " (field d "participants" (VList []))) as [joined|e];
      cbn [bind]; [|discriminate].
    intros H. injection H as <-. rewrite <- !app_assoc.
    eexists. split; reflexivity.
  - intros H. injection H as <-. rewrite <- !app_assoc.
    eexists. split; reflexivity.
Qed.

Lemma add_header_epoch_date_witness :
  _add_header plain_runtime []
    (VDict [("title", VStr "Standup"); ("duration", VInt 125); ("date", VInt 0)])
  = _add_header plain_runtime []
      (VDict [("title", VStr "Standup"); ("duration", VInt 125)]).
Proof.
  exact (proj1 (proj1 add_header_epoch_date plain_runtime []
                  [("title", VStr "Standup"); ("duration", VInt 125); ("date", VInt 0)]
                  (VInt 0) eq_refl eq_refl)).
Defined.

(** ** The client *)



(** ** The summary *)

Lemma field_set_other (k k0 : string) (v default : value) (d : dict) :
  String.eqb k0 k = false -> field (dict_set k0 v d) k default = field d k default.
Proof. intros H. unfold field. rewrite lookup_set_other by exact H. reflexivity. Qed.

Lemma field_set_same (k : string) (v x default : value) (d : dict) :
  lookup k d = Some x -> field (dict_set k v d) k default = v.
Proof. intros H. unfold field. rewrite (lookup_set_same k v x d H). reflexivity. Qed.

Lemma truthy_dict_set (k : string) (v : value) (d : dict) :
  truthy (VDict (dict_set k v d)) = truthy (VDict d).
Proof. destruct d; reflexivity. Qed.

(** [_add_summary] is the summary without its action items, then the action
    items. *)
Lemma add_summary_split (rt : Runtime) (lines : list value) (d : dict) (v : value) :
  lookup "action_items" d = Some v ->
  truthy v = true ->
  _add_summary rt lines (VDict d) =
  pre <- _add_summary rt lines (VDict (dict_set "action_items" VNone d)) ;;
  match v with
  | VStr s => Ok (pre ++ [VStr "--- ACTION ITEMS ---"; VStr (strip s); VStr ""])
  | _ =>
      items <- py_iter v ;;
      Ok (pre ++ [VStr "--- ACTION ITEMS ---"]
              ++ map (fun item => VStr ("  - " ++ py_str rt item)) items
              ++ [VStr ""])
  end.
Proof.
  intros Hget Hv. unfold _add_summary.
  rewrite truthy_dict_set.
  assert (Hd : truthy (VDict d) = true) by (destruct d; [discriminate | reflexivity]).
  rewrite Hd. cbn [negb]. rewrite !py_get_dict. cbn [bind].
  rewrite !(field_set_other "overview"), !(field_set_other "keywords") by reflexivity.
  rewrite (field_set_same "action_items" VNone v VNone d Hget).
  assert (Hfield : field d "action_items" VNone = v)
    by (unfold field; rewrite Hget; reflexivity).
  rewrite Hfield, Hv. cbn [truthy].
  set (lines1 := if truthy (field d "overview" VNone) then _ else _).
  destruct (if truthy (field d "keywords" VNone) then _ else _) as [lines2|e];
    cbn [bind]; [|reflexivity].
  destruct v; try reflexivity; cbn [py_iter bind]; rewrite <- ?app_assoc; reflexivity.
Qed.

(** C6.  When the summary's action items are present and non-empty,
    [_add_summary] ends its lines with "--- ACTION ITEMS ---", then for a
    string the string without the whitespace at its ends as one line with no
    "  - " before it, for a list one line "  - <item>" per element, then an
    empty line. *)
Theorem add_summary_action_items (rt : Runtime) (lines : list value) (d : dict) :
  (forall s : string,
      lookup "action_items" d = Some (VStr s) ->
      s <> "" ->
      _add_summary rt lines (VDict d) =
      (pre <- _add_summary rt lines (VDict (dict_set "action_items" VNone d)) ;;
       Ok (pre ++ [VStr "--- ACTION ITEMS ---"; VStr (strip s); VStr ""])) /\
      line_starts "  - " (VStr (strip s)) = false /\
      exists l r, s = (l ++ strip s ++ r)%string /\
                  all_chars is_space l = true /\ all_chars is_space r = true /\
                  starts_with_space (strip s) = false /\
                  ends_with_space (strip s) = false) /\
  (forall items : list value,
      lookup "action_items" d = Some (VList items) ->
      items <> [] ->
      _add_summary rt lines (VDict d) =
      (pre <- _add_summary rt lines (VDict (dict_set "action_items" VNone d)) ;;
       Ok (pre ++ [VStr "--- ACTION ITEMS ---"]
               ++ map (fun item => VStr ("  - " ++ py_str rt item)) items
               ++ [VStr ""]))).
Proof.
  split.
  - intros s Hget Hs.
    assert (Hv : truthy (VStr s) = true).
    { simpl. destruct (String.eqb s "") eqn:E; [|reflexivity].
      apply String.eqb_eq in E. contradiction. }
    split; [exact (add_summary_split rt lines d (VStr s) Hget Hv)|].
    split; [|apply strip_spec].
    destruct (strip_spec s) as (_ & _ & _ & _ & _ & Hhead & _).
    destruct (strip s) as [|c s']; [reflexivity|].
    cbn [starts_with_space] in Hhead. unfold line_starts.
    change (prefix "  - " (String c s'))
      with (if ascii_dec " " c then prefix " - " s' else false).
    destruct (ascii_dec " " c) as [<-|]; [discriminate | reflexivity].
  - intros items Hget Hitems.
    assert (Hv : truthy (VList items) = true) by (destruct items; [contradiction | reflexivity]).
    exact (add_summary_split rt lines d (VList items) Hget Hv).
Qed.

Lemma add_summary_action_items_witness :
  _add_summary plain_runtime []
    (VDict [("overview", VStr "Weekly sync."); ("action_items", VStr "  Ship the fix  ")])
  = Ok [VStr "--- SUMMARY ---"; VStr "Weekly sync."; VStr "";
        VStr "--- ACTION ITEMS ---"; VStr "Ship the fix"; VStr ""]
  /\
  _add_summary plain_runtime []
    (VDict [("action_items", VList [VStr "Ship the fix"; VStr "Write notes"])])
  = Ok [VStr "--- ACTION ITEMS ---"; VStr "  - Ship the fix"; VStr "  - Write notes";
        VStr ""].
Proof.
  split.
  - destruct (proj1 (add_summary_action_items plain_runtime []
                       [("overview", VStr "Weekly sync.");
                        ("action_items", VStr "  Ship the fix  ")])
                "  Ship the fix  " eq_refl) as (H & _).
    + discriminate.
    + rewrite H. reflexivity.
  - rewrite (proj2 (add_summary_action_items plain_runtime []
                      [("action_items", VList [VStr "Ship the fix"; VStr "Write notes"])])
               [VStr "Ship the fix"; VStr "Write notes"] eq_refl).
    + reflexivity.
    + discriminate.
Defined.

(** ** The sentence stream *)

(** One turn of the loop: the header when the speaker is not the current
    one, then the sentence's line. *)
Lemma sentence_step_eq (rt : Runtime) (lines : list value) (cur sentence : value) :
  sentence_step rt (lines, cur) sentence =
  (speaker <- effective_speaker sentence ;;
   line <- sentence_line rt sentence ;;
   Ok (lines ++ (if py_eqb speaker cur then [] else [VStr ""; speaker_header rt speaker])
             ++ [line],
       if py_eqb speaker cur then cur else speaker)).
Proof.
  unfold sentence_step, sentence_line, speaker_header.
  destruct (effective_speaker sentence) as [speaker|e]; cbn [bind]; [|reflexivity].
  destruct (py_get sentence "text" (VStr "")) as [text|e]; cbn [bind]; [|reflexivity].
  destruct (py_get sentence "start_time" (VInt 0)) as [start|e]; cbn [bind]; [|reflexivity].
  destruct (py_eqb speaker cur); cbn [negb];
    destruct (format_timestamp start); cbn [bind]; rewrite <- ?app_assoc; reflexivity.
Qed.

(** C3, as the code has it.  The effective speaker of a sentence is its
    speaker_name when that is present and truthy (non-empty); otherwise its
    speaker_id when that field is present, whatever its value, the empty
    string included; otherwise "Unknown".  It is the value the loop compares
    with the current speaker and prints in the header. *)
Theorem effective_speaker_cases (d : dict) :
  (forall name, lookup "speaker_name" d = Some name -> truthy name = true ->
                effective_speaker (VDict d) = Ok name) /\
  (forall id, truthy (field d "speaker_name" VNone) = false ->
              lookup "speaker_id" d = Some id ->
              effective_speaker (VDict d) = Ok id) /\
  (truthy (field d "speaker_name" VNone) = false ->
   lookup "speaker_id" d = None ->
   effective_speaker (VDict d) = Ok (VStr "Unknown")) /\
  (forall rt lines cur speaker line,
      effective_speaker (VDict d) = Ok speaker ->
      sentence_line rt (VDict d) = Ok line ->
      sentence_step rt (lines, cur) (VDict d) =
      Ok (lines ++ (if py_eqb speaker cur then [] else [VStr ""; speaker_header rt speaker])
                ++ [line],
          if py_eqb speaker cur then cur else speaker)).
Proof.
  unfold effective_speaker. rewrite py_get_dict. cbn [bind].
  repeat split.
  - intros name Hname Htrue. unfold field. rewrite Hname, Htrue. reflexivity.
  - intros id Hfalse Hid. rewrite Hfalse. unfold py_get. rewrite Hid. reflexivity.
  - intros Hfalse Hid. rewrite Hfalse. unfold py_get. rewrite Hid. reflexivity.
  - intros rt lines cur speaker line Hsp Hline.
    rewrite sentence_step_eq. unfold effective_speaker.
    rewrite py_get_dict. cbn [bind]. rewrite Hsp, Hline. reflexivity.
Qed.

Lemma effective_speaker_cases_witness :
  effective_speaker (VDict [("speaker_name", VStr "Alice"); ("speaker_id", VInt 7)])
  = Ok (VStr "Alice") /\
  effective_speaker (VDict [("speaker_name", VStr ""); ("speaker_id", VInt 7)])
  = Ok (VInt 7) /\
  effective_speaker (VDict [("speaker_name", VNone)]) = Ok (VStr "Unknown").
Proof.
  split; [|split].
  - exact (proj1 (effective_speaker_cases
                    [("speaker_name", VStr "Alice"); ("speaker_id", VInt 7)])
             (VStr "Alice") eq_refl eq_refl).
  - exact (proj1 (proj2 (effective_speaker_cases
                           [("speaker_name", VStr ""); ("speaker_id", VInt 7)]))
             (VInt 7) eq_refl eq_refl).
  - exact (proj1 (proj2 (proj2 (effective_speaker_cases [("speaker_name", VNone)])))
             eq_refl eq_refl).
Defined.

(** C3 as stated fails: with no speaker name and an empty speaker_id the
    effective speaker is the empty string, not "Unknown", and the header
    shows it. *)
Lemma empty_speaker_id_is_kept :
  effective_speaker (VDict [("speaker_name", VNone); ("speaker_id", VStr "")])
  = Ok (VStr "") /\
  effective_speaker (VDict [("speaker_id", VStr "")]) = Ok (VStr "") /\
  _add_sentences plain_runtime []
    (VList [VDict [("text", VStr "Hi"); ("speaker_id", VStr ""); ("start_time", VInt 0)]])
  = Ok [VStr (py_mul "=" 80); VStr "FULL TRANSCRIPT"; VStr (py_mul "=" 80); VStr "";
        VStr ""; VStr "---  ---"; VStr "[00:00] Hi"].
Proof. repeat split; reflexivity. Qed.













(** ** The one validity check *)

Lemma quiet_ok {A : Type} (a : A) : quiet (Ok a).
Proof. intros msg H. discriminate. Qed.

Lemma quiet_bind {A B : Type} (c : pyresult A) (k : A -> pyresult B) :
  quiet c -> (forall a, quiet (k a)) -> quiet (bind c k).
Proof.
  intros Hc Hk. destruct c as [a|e]; simpl; [apply Hk|].
  intros msg H. apply (Hc msg). injection H as ->. reflexivity.
Qed.

Create HintDb quiet.

Ltac quiet_step :=
  first
    [ solve [auto with quiet nocore]
    | apply quiet_ok
    | match goal with
      | |- quiet (Raise _) => intros ? ?; discriminate
      | |- quiet (if ?b then _ else _) => destruct b
      | |- quiet (match ?x with _ => _ end) => destruct x
      | |- quiet (bind _ _) => apply quiet_bind; [|intros ?]
      end ].

Ltac quiet := repeat quiet_step.

Lemma quiet_py_get (o : value) (k : string) (default : value) : quiet (py_get o k default).
Proof. unfold py_get. quiet. Qed.

Lemma quiet_as_number (v : value) : quiet (as_number v).
Proof. unfold as_number. quiet. Qed.

Lemma quiet_py_iter (v : value) : quiet (py_iter v).
Proof. unfold py_iter. quiet. Qed.

Lemma quiet_all_str (l : list value) : quiet (all_str l).
Proof. induction l as [|v l IH]; simpl; quiet. Qed.

#[local] Hint Resolve quiet_py_get quiet_as_number quiet_py_iter quiet_all_str : quiet.

Lemma quiet_py_join (sep : string) (v : value) : quiet (py_join sep v).
Proof. unfold py_join. quiet. Qed.

Lemma quiet_format_duration (v : value) : quiet (format_duration v).
Proof. unfold format_duration. cbv zeta. quiet. Qed.

Lemma quiet_format_timestamp (v : value) : quiet (format_timestamp v).
Proof. unfold format_timestamp. cbv zeta. quiet. Qed.

Lemma quiet_date_string (rt : Runtime) (v : value) : quiet (date_string rt v).
Proof. unfold date_string. quiet. Qed.

#[local] Hint Resolve quiet_py_join quiet_format_duration quiet_format_timestamp
  quiet_date_string : quiet.



Lemma quiet_effective_speaker (v : value) : quiet (effective_speaker v).
Proof. unfold effective_speaker. quiet. Qed.

#[local] Hint Resolve quiet_effective_speaker : quiet.

Lemma quiet_sentence_step (rt : Runtime) (st : list value * value) (v : value) :
  quiet (sentence_step rt st v).
Proof.
  destruct st as [lines cur]. rewrite sentence_step_eq. unfold sentence_line. quiet.
Qed.

Lemma quiet_sentence_loop (rt : Runtime) (l : list value) :
  forall st, quiet (sentence_loop rt st l).
Proof.
  induction l as [|v l IH]; intros st; simpl; [apply quiet_ok|].
  apply quiet_bind; [apply quiet_sentence_step | exact IH].
Qed.

#[local] Hint Resolve quiet_sentence_loop : quiet.


(** ** Well-formed transcripts are rendered *)

Lemma as_number_ok (v : value) : is_number v = true -> exists n, as_number v = Ok n.
Proof. destruct v; simpl; try discriminate; eauto. Qed.


Lemma format_timestamp_ok (v : value) :
  is_number v = true -> exists s, format_timestamp v = Ok s.
Proof.
  intros H. destruct (as_number_ok v H) as (n & Hn).
  unfold format_timestamp. rewrite Hn. cbn [bind]. eauto.
Qed.








Lemma sentence_step_ok (rt : Runtime) (sentence : value) :
  sentence_ok sentence = true ->
  forall (lines : list value) (cur : value),
  exists out cur', sentence_step rt (lines, cur) sentence = Ok (lines ++ out, cur') /\
                   forallb is_str out = true.
Proof.
  intros H lines cur. destruct sentence as [| | | | | |d]; try discriminate.
  simpl in H. rewrite sentence_step_eq.
  unfold effective_speaker, sentence_line. rewrite !py_get_dict. cbn [bind].
  destruct (format_timestamp_ok _ H) as (timestamp & Hts).
  assert (Hsp : exists speaker,
             (if truthy (field d "speaker_name" VNone)
              then Ok (field d "speaker_name" VNone)
              else Ok (field d "speaker_id" (VStr "Unknown"))) = Ok speaker)
    by (destruct (truthy _); eauto).
  destruct Hsp as (speaker & ->). cbn [bind]. rewrite Hts. cbn [bind].
  do 2 eexists. split; [reflexivity|].
  destruct (py_eqb speaker cur); reflexivity.
Qed.



(** Conversely, a run that returns went through a transcript of that shape. *)















(** What [format] does once the transcript has passed the check. *)
Lemma format_truthy (rt : Runtime) (data envelope transcript : value) :
  py_get data "data" (VDict []) = Ok envelope ->
  py_get envelope "transcript" VNone = Ok transcript ->
  truthy transcript = true ->
  format rt data =
  (lines <- _add_header rt [] transcript ;;
   summary <- py_get transcript "summary" (VDict []) ;;
   lines <- _add_summary rt lines summary ;;
   sentences <- py_get transcript "sentences" (VList []) ;;
   lines <- _add_sentences rt lines sentences ;;
   py_join newline (VList lines)).
Proof.
  intros He Ht Htrue. unfold format. rewrite He. cbn [bind]. rewrite Ht. cbn [bind].
  rewrite Htrue. reflexivity.
Qed.




(** ** Two runs from end to end *)

(** The small response is rendered as a header with the duration
    "2m 5s" and neither a DATE nor a PARTICIPANTS line, no summary, and a
    transcript block with one header for Alice and the line "[00:00] Hi". *)
Theorem format_standup_report :
  format plain_runtime standup_response =
  Ok (join newline
        [py_mul "=" 80; "TITLE: Standup"; "ID: ABCDEFGHIJKLMNOPQRSTUVWXYZ";
         "DURATION: 2m 5s"; py_mul "=" 80; "";
         py_mul "=" 80; "FULL TRANSCRIPT"; py_mul "=" 80; "";
         ""; "--- Alice ---"; "[00:00] Hi"]).
Proof. reflexivity. Qed.

(** X1.  A response with a 4xx or 5xx status makes [get_transcript] raise
    the HTTPError of that status, whatever the body holds. *)
Theorem get_transcript_http_error
    (rt : Runtime) (post : FirefliesClient.session) (transcript_id : string)
    (r : response) :
  post API_URL (query_payload transcript_id) = Ok r ->
  400 <= status_code r < 600 ->
  FirefliesClient.get_transcript rt post transcript_id = Raise (HTTPError (status_code r)).
Proof.
  intros Hpost Hstatus. unfold FirefliesClient.get_transcript.
  fold (query_payload transcript_id). rewrite Hpost. cbn [bind].
  unfold raise_for_status.
  replace ((400 <=? status_code r) && (status_code r <? 600)) with true; [reflexivity|].
  symmetry. apply andb_true_iff. split; [apply Z.leb_le | apply Z.ltb_lt]; lia.
Qed.

Lemma get_transcript_http_error_witness :
  FirefliesClient.get_transcript plain_runtime
    (fun _ _ => Ok {| status_code := 401; json_body := None |})
    "01HZXABCDEFGHJKMNPQRSTVWXY"
  = Raise (HTTPError 401).
Proof.
  refine (get_transcript_http_error plain_runtime _ _
            {| status_code := 401; json_body := None |} eq_refl _).
  simpl. lia.
Defined.

(** * Further properties *)

(** ** Identifier extraction, continued *)

Lemma append_nil_r (s : string) : (s ++ "")%string = s.
Proof. induction s as [|c s IH]; simpl; congruence. Qed.

Lemma match_class_n_exact (cls : ascii -> bool) (m rest : string) :
  all_chars cls m = true ->
  match_class_n cls (String.length m) (m ++ rest) = Some m.
Proof.
  induction m as [|c m IH]; simpl; [reflexivity|].
  intros H. apply andb_true_iff in H as [-> H]. rewrite (IH H). reflexivity.
Qed.

Lemma re_search_head (cls : ascii -> bool) (m rest : string) :
  all_chars cls m = true ->
  re_search_class_n cls (String.length m) (m ++ rest) = Some m.
Proof.
  intros H. destruct m as [|c m]; [destruct rest; reflexivity|].
  cbn [re_search_class_n append].
  change (String c (m ++ rest)) with (String c m ++ rest)%string.
  rewrite (match_class_n_exact cls (String c m) rest H). reflexivity.
Qed.

(** A match that starts inside [p] cannot run over a last character of [p]
    that is outside the class. *)
Lemma match_class_n_within (cls : ascii -> bool) (n : nat) :
  forall p rest m : string,
    p <> "" -> last_char_in cls p = false ->
    match_class_n cls n (p ++ rest) = Some m ->
    match_class_n cls n p = Some m.
Proof.
  induction n as [|n IH]; intros p rest m Hp Hlast; [auto|].
  destruct p as [|c p]; [contradiction|]. cbn [append match_class_n].
  destruct (cls c) eqn:Ec; [|discriminate].
  destruct p as [|c' p].
  - simpl in Hlast. congruence.
  - destruct (match_class_n cls n (String c' p ++ rest)) as [m'|] eqn:E; [|discriminate].
    rewrite (IH (String c' p) rest m' ltac:(discriminate) Hlast E). auto.
Qed.

Lemma re_search_skip (cls : ascii -> bool) (n : nat) (p rest : string) :
  re_search_class_n cls n p = None ->
  last_char_in cls p = false ->
  re_search_class_n cls n (p ++ rest) = re_search_class_n cls n rest.
Proof.
  induction p as [|c p IH]; intros Hnone Hlast; [reflexivity|].
  cbn [re_search_class_n] in Hnone.
  destruct (match_class_n cls n (String c p)) eqn:Ehead; [discriminate|].
  cbn [append re_search_class_n].
  change (String c (p ++ rest)) with (String c p ++ rest)%string.
  destruct (match_class_n cls n (String c p ++ rest)) as [m|] eqn:E.
  - rewrite (match_class_n_within cls n (String c p) rest m ltac:(discriminate) Hlast E)
      in Ehead. discriminate.
  - apply IH; [exact Hnone|]. destruct p; [reflexivity | exact Hlast].
Qed.

Lemma re_search_no_window (cls : ascii -> bool) (n : nat) (s : string) :
  (forall i, run_at cls n i s = None) -> re_search_class_n cls n s = None.
Proof.
  intros H. destruct (re_search_class_n cls n s) as [m|] eqn:E; [|reflexivity].
  destruct (re_search_found cls n s m (match_class_n_head cls n) E) as (i & Hi & _).
  rewrite H in Hi. discriminate.
Qed.

(** X2.  A string of 26 uppercase letters or digits is its own identifier,
    alone or with anything behind it. *)
Theorem extract_transcript_id_bare (id rest : string) :
  String.length id = 26%nat ->
  all_chars is_upper_alnum id = true ->
  extract_transcript_id id = id /\ extract_transcript_id (id ++ rest) = id.
Proof.
  intros Hlen Hall. unfold extract_transcript_id.
  pose proof (re_search_head is_upper_alnum id rest Hall) as Hrest.
  pose proof (re_search_head is_upper_alnum id "" Hall) as Hbare.
  rewrite Hlen in Hrest, Hbare. rewrite append_nil_r in Hbare.
  rewrite Hrest, Hbare. auto.
Qed.

Lemma extract_transcript_id_bare_witness :
  extract_transcript_id "01HZXABCDEFGHJKMNPQRSTVWXY" = "01HZXABCDEFGHJKMNPQRSTVWXY" /\
  extract_transcript_id "01HZXABCDEFGHJKMNPQRSTVWXY?ref=mail" = "01HZXABCDEFGHJKMNPQRSTVWXY".
Proof.
  exact (extract_transcript_id_bare "01HZXABCDEFGHJKMNPQRSTVWXY" "?ref=mail"
           eq_refl eq_refl).
Defined.

(** X3.  Extraction is idempotent: what it returns is returned unchanged
    when extracted again. *)
Theorem extract_transcript_id_idempotent (s : string) :
  extract_transcript_id (extract_transcript_id s) = extract_transcript_id s.
Proof.
  unfold extract_transcript_id.
  destruct (re_search_class_n is_upper_alnum 26 s) as [m|] eqn:E; [|rewrite E; reflexivity].
  destruct (re_search_found _ _ s m (match_class_n_head _ _) E) as (i & Hi & _).
  destruct (run_at_some _ _ _ _ _ Hi) as (_ & Hlen & Hall).
  pose proof (re_search_head is_upper_alnum m "" Hall) as H.
  rewrite Hlen, append_nil_r in H. rewrite H. reflexivity.
Qed.

(** X4.  An identifier is found behind any prefix that holds no window of
    26 uppercase letters or digits itself and does not end in one of these
    characters, as the path of a URL that ends in "/" or "::" does. *)
Theorem extract_transcript_id_embedded (prefix id rest : string) :
  (forall i, run_at is_upper_alnum 26 i prefix = None) ->
  last_char_in is_upper_alnum prefix = false ->
  String.length id = 26%nat ->
  all_chars is_upper_alnum id = true ->
  extract_transcript_id (prefix ++ id ++ rest) = id.
Proof.
  intros Hnone Hlast Hlen Hall. unfold extract_transcript_id.
  rewrite (re_search_skip is_upper_alnum 26 prefix (id ++ rest)
             (re_search_no_window _ _ _ Hnone) Hlast).
  pose proof (re_search_head is_upper_alnum id rest Hall) as H.
  rewrite Hlen in H. rewrite H. reflexivity.
Qed.

Lemma extract_transcript_id_embedded_witness :
  extract_transcript_id
    ("https://app.fireflies.ai/view/Weekly-Sync::" ++ "01HZXABCDEFGHJKMNPQRSTVWXY"
       ++ "?ref=mail")
  = "01HZXABCDEFGHJKMNPQRSTVWXY".
Proof.
  apply extract_transcript_id_embedded.
  - apply re_search_none; [apply match_class_n_head | reflexivity].
  - reflexivity.
  - reflexivity.
  - reflexivity.
Defined.

(** ** The client, continued *)

(** X5.  [get_transcript] returns a body only when the request went through,
    the status was not 4xx or 5xx, the body was JSON and held no "errors":
    the value returned is that body, and if it is an object it has no
    "errors" key. *)
Theorem get_transcript_ok_inv
    (rt : Runtime) (post : FirefliesClient.session) (transcript_id : string)
    (data : value) :
  FirefliesClient.get_transcript rt post transcript_id = Ok data ->
  exists r : response,
    post API_URL (query_payload transcript_id) = Ok r /\
    (status_code r < 400 \/ 600 <= status_code r) /\
    json_body r = Some data /\
    py_contains "errors" data = Ok false /\
    (forall body, data = VDict body -> lookup "errors" body = None).
Proof.
  unfold FirefliesClient.get_transcript. fold (query_payload transcript_id).
  intros H. apply bind_ok in H as (r & Hpost & H).
  apply bind_ok in H as ([] & Hstatus & H).
  apply bind_ok in H as (body & Hbody & H).
  apply bind_ok in H as (has_errors & Hhas & H).
  destruct has_errors.
  { apply bind_ok in H as (errors & _ & H). discriminate. }
  injection H as <-. exists r. repeat split; try assumption.
  - unfold raise_for_status in Hstatus.
    destruct ((400 <=? status_code r) && (status_code r <? 600)) eqn:E; [discriminate|].
    apply andb_false_iff in E as [E|E]; [left; apply Z.leb_gt | right; apply Z.ltb_ge];
      exact E.
  - unfold response_json in Hbody. destruct (json_body r); [congruence | discriminate].
  - intros d ->. simpl in Hhas. destruct (lookup "errors" d); [discriminate | reflexivity].
Qed.

Lemma get_transcript_ok_inv_witness :
  exists r : response,
    Ok {| status_code := 200; json_body := Some standup_response |} = Ok r /\
    (status_code r < 400 \/ 600 <= status_code r) /\
    json_body r = Some standup_response /\
    py_contains "errors" standup_response = Ok false /\
    (forall body, standup_response = VDict body -> lookup "errors" body = None).
Proof.
  exact (get_transcript_ok_inv plain_runtime
           (fun _ _ => Ok {| status_code := 200; json_body := Some standup_response |})
           "01HZXABCDEFGHJKMNPQRSTVWXY" standup_response eq_refl).
Defined.

(** X6.  What [get_transcript] makes of a request that fails or of a body
    it cannot search: a transport error passes through; on a status that is
    not 4xx or 5xx, a body that is not JSON raises the decoding error, and a
    body that is JSON null, a boolean or a number raises a TypeError (these
    have no [in]). *)
Theorem get_transcript_unusable_body
    (rt : Runtime) (post : FirefliesClient.session) (transcript_id : string) :
  (forall e, post API_URL (query_payload transcript_id) = Raise e ->
             FirefliesClient.get_transcript rt post transcript_id = Raise e) /\
  (forall r, post API_URL (query_payload transcript_id) = Ok r ->
             (status_code r < 400 \/ 600 <= status_code r) ->
             (json_body r = None ->
              FirefliesClient.get_transcript rt post transcript_id = Raise JSONDecodeError) /\
             (forall v, json_body r = Some v ->
                        v = VNone \/ is_number v = true ->
                        FirefliesClient.get_transcript rt post transcript_id
                        = Raise TypeError)).
Proof.
  unfold FirefliesClient.get_transcript. fold (query_payload transcript_id).
  split.
  - intros e ->. reflexivity.
  - intros r -> Hstatus. cbn [bind]. unfold raise_for_status, response_json.
    replace ((400 <=? status_code r) && (status_code r <? 600)) with false.
    2:{ symmetry. apply andb_false_iff.
        destruct Hstatus; [left; apply Z.leb_gt | right; apply Z.ltb_ge]; lia. }
    cbn [bind]. split.
    + intros ->. reflexivity.
    + intros v -> [->|Hnum]; [reflexivity|].
      destruct v; try discriminate; reflexivity.
Qed.

Lemma get_transcript_unusable_body_witness :
  FirefliesClient.get_transcript plain_runtime
    (fun _ _ => Ok {| status_code := 200; json_body := Some VNone |})
    "01HZXABCDEFGHJKMNPQRSTVWXY" = Raise TypeError /\
  FirefliesClient.get_transcript plain_runtime
    (fun _ _ => Ok {| status_code := 302; json_body := None |})
    "01HZXABCDEFGHJKMNPQRSTVWXY" = Raise JSONDecodeError /\
  FirefliesClient.get_transcript plain_runtime (fun _ _ => Raise ConnectionError)
    "01HZXABCDEFGHJKMNPQRSTVWXY" = Raise ConnectionError.
Proof.
  split; [|split].
  - assert (Hstatus : 200 < 400 \/ 600 <= 200) by (left; lia).
    exact (proj2 (proj2 (get_transcript_unusable_body plain_runtime
                           (fun _ _ => Ok {| status_code := 200; json_body := Some VNone |})
                           "01HZXABCDEFGHJKMNPQRSTVWXY")
                    {| status_code := 200; json_body := Some VNone |} eq_refl Hstatus)
             VNone eq_refl (or_introl eq_refl)).
  - assert (Hstatus : 302 < 400 \/ 600 <= 302) by (left; lia).
    exact (proj1 (proj2 (get_transcript_unusable_body plain_runtime
                           (fun _ _ => Ok {| status_code := 302; json_body := None |})
                           "01HZXABCDEFGHJKMNPQRSTVWXY")
                    {| status_code := 302; json_body := None |} eq_refl Hstatus)
             eq_refl).
  - exact (proj1 (get_transcript_unusable_body plain_runtime
                    (fun _ _ => Raise ConnectionError) "01HZXABCDEFGHJKMNPQRSTVWXY")
             ConnectionError eq_refl).
Defined.

(** ** The report, section by section *)

Lemma bind_assoc {A B C : Type} (c : pyresult A) (f : A -> pyresult B)
    (g : B -> pyresult C) :
  bind (bind c f) g = bind c (fun a => bind (f a) g).
Proof. destruct c; reflexivity. Qed.

(** Each stage adds a block that does not depend on the lines before it. *)
Lemma add_header_frame (rt : Runtime) (lines : list value) (t : value) :
  _add_header rt lines t = (header <- _add_header rt [] t ;; Ok (lines ++ header)).
Proof.
  destruct t as [| | | | | |d]; try reflexivity.
  unfold _add_header. rewrite !py_get_dict. cbn [bind].
  destruct (format_duration _) as [dur|e]; cbn [bind]; [|reflexivity].
  destruct (truthy (field d "date" VNone));
    [destruct (date_string rt _) as [date_str|e]; cbn [bind]; [|reflexivity]|];
    (destruct (truthy (field d "participants" (VList [])));
     [destruct (py_join ", " _) as [joined|e]; cbn [bind]; [|reflexivity]|]);
    cbn [bind app]; rewrite <- ?app_assoc; reflexivity.
Qed.

Ltac frame_cases :=
  repeat
    (cbn [bind app negb];
     match goal with
     | |- context [if truthy ?v then _ else _] => destruct (truthy v)
     | |- context [match ?v with VNone => _ | _ => _ end] => destruct v
     | |- context [bind (py_join ?sep ?v) _] => destruct (py_join sep v)
     | |- context [bind (py_iter ?v) _] => destruct (py_iter v)
     end);
  cbn [bind app negb]; rewrite <- ?app_assoc; rewrite ?app_nil_r; cbn [app];
  reflexivity.

Lemma add_summary_frame (rt : Runtime) (lines : list value) (v : value) :
  _add_summary rt lines v = (block <- _add_summary rt [] v ;; Ok (lines ++ block)).
Proof.
  unfold _add_summary. destruct (negb (truthy v)).
  { cbn [bind]. rewrite app_nil_r. reflexivity. }
  destruct v as [| | | | | |d]; try reflexivity.
  rewrite !py_get_dict. cbn [bind].
  generalize (field d "overview" VNone) as overview.
  generalize (field d "keywords" VNone) as keywords.
  generalize (field d "action_items" VNone) as action_items.
  intros action_items keywords overview.
  destruct (truthy overview), (truthy keywords), (truthy action_items);
    frame_cases.
Qed.

Lemma sentence_loop_frame (rt : Runtime) (sentences : list value) :
  forall (lines : list value) (cur : value),
    sentence_loop rt (lines, cur) sentences =
    (st <- sentence_loop rt ([], cur) sentences ;; Ok (lines ++ fst st, snd st)).
Proof.
  induction sentences as [|sentence rest IH]; intros lines cur; cbn [sentence_loop].
  - cbn [bind fst snd]. rewrite app_nil_r. reflexivity.
  - rewrite !sentence_step_eq.
    destruct (effective_speaker sentence) as [speaker|e]; cbn [bind]; [|reflexivity].
    destruct (sentence_line rt sentence) as [line|e]; cbn [bind]; [|reflexivity].
    rewrite (IH (lines ++ _)), (IH ([] ++ _)).
    destruct (sentence_loop rt ([], _) rest) as [[out cur']|e]; [|reflexivity].
    cbn [bind fst snd app]. rewrite <- !app_assoc. reflexivity.
Qed.

Lemma add_sentences_frame (rt : Runtime) (lines : list value) (v : value) :
  _add_sentences rt lines v = (block <- _add_sentences rt [] v ;; Ok (lines ++ block)).
Proof.
  unfold _add_sentences. destruct (negb (truthy v)).
  { cbn [bind]. rewrite app_nil_r. reflexivity. }
  destruct (py_iter v) as [items|e]; cbn [bind]; [|reflexivity].
  rewrite (sentence_loop_frame rt items (lines ++ _)),
    (sentence_loop_frame rt items ([] ++ _)).
  destruct (sentence_loop rt ([], VNone) items) as [[out cur']|e]; [|reflexivity].
  cbn [bind fst snd app]. rewrite <- !app_assoc. reflexivity.
Qed.

Lemma format_of_dict (rt : Runtime) (t : dict) :
  t <> [] ->
  format rt (response_of (VDict t)) =
  (header <- _add_header rt [] (VDict t) ;;
   summary <- _add_summary rt [] (field t "summary" (VDict [])) ;;
   stream <- _add_sentences rt [] (field t "sentences" (VList [])) ;;
   py_join newline (VList (header ++ summary ++ stream))).
Proof.
  intros Ht.
  assert (Htrue : truthy (VDict t) = true) by (destruct t; [contradiction | reflexivity]).
  rewrite (format_truthy rt (response_of (VDict t)) (VDict [("transcript", VDict t)])
             (VDict t) eq_refl eq_refl Htrue).
  destruct (_add_header rt [] (VDict t)) as [header|e]; cbn [bind]; [|reflexivity].
  rewrite !py_get_dict. cbn [bind].
  rewrite (add_summary_frame rt header).
  destruct (_add_summary rt [] _) as [summary|e]; cbn [bind]; [|reflexivity].
  rewrite (add_sentences_frame rt (header ++ summary)).
  destruct (_add_sentences rt [] _) as [stream|e]; cbn [bind]; [|reflexivity].
  rewrite <- app_assoc. reflexivity.
Qed.

(** X7.  The three sections of a report are independent: each stage
    appends to the lines it is given the block it would produce from no
    lines at all, and the report of a non-empty transcript object is the
    header, the summary and the transcript block, each computed on its own,
    joined by newlines. *)
Theorem format_sections (rt : Runtime) :
  (forall lines t,
      _add_header rt lines t = (block <- _add_header rt [] t ;; Ok (lines ++ block))) /\
  (forall lines v,
      _add_summary rt lines v = (block <- _add_summary rt [] v ;; Ok (lines ++ block))) /\
  (forall lines v,
      _add_sentences rt lines v
      = (block <- _add_sentences rt [] v ;; Ok (lines ++ block))) /\
  (forall k x d,
      format rt (response_of (VDict ((k, x) :: d))) =
      (let t := (k, x) :: d in
       header <- _add_header rt [] (VDict t) ;;
       summary <- _add_summary rt [] (field t "summary" (VDict [])) ;;
       stream <- _add_sentences rt [] (field t "sentences" (VList [])) ;;
       py_join newline (VList (header ++ summary ++ stream)))).
Proof.
  split; [exact (add_header_frame rt)|].
  split; [exact (add_summary_frame rt)|].
  split; [exact (add_sentences_frame rt)|].
  intros k x d. apply format_of_dict. discriminate.
Qed.

(** ** Null and missing fields *)

Lemma add_header_without (rt : Runtime) (lines : list value) (d : dict) (k : string)
    (v : value) :
  In k optional_fields ->
  lookup k d = Some v ->
  truthy v = false ->
  _add_header rt lines (VDict d) = _add_header rt lines (VDict (dict_remove k d)).
Proof.
  intros Hk Hget Hv.
  assert (Hfield : forall default, field d k default = v)
    by (intros default; unfold field; rewrite Hget; reflexivity).
  unfold _add_header. rewrite !py_get_dict. cbn [bind].
  destruct Hk as [<-|[<-|[<-|[<-|[]]]]].
  - rewrite !(field_remove_other "title"), !(field_remove_other "id"),
      !(field_remove_other "duration"), !(field_remove_other "participants")
      by reflexivity.
    rewrite field_remove_same, Hfield, Hv. reflexivity.
  - rewrite !(field_remove_other "title"), !(field_remove_other "id"),
      !(field_remove_other "duration"), !(field_remove_other "date")
      by reflexivity.
    rewrite field_remove_same, Hfield, Hv. reflexivity.
  - rewrite !(field_remove_other "title"), !(field_remove_other "id"),
      !(field_remove_other "duration"), !(field_remove_other "date"),
      !(field_remove_other "participants") by reflexivity.
    reflexivity.
  - rewrite !(field_remove_other "title"), !(field_remove_other "id"),
      !(field_remove_other "duration"), !(field_remove_other "date"),
      !(field_remove_other "participants") by reflexivity.
    reflexivity.
Qed.

Lemma add_summary_falsy (rt : Runtime) (lines : list value) (v : value) :
  truthy v = false -> _add_summary rt lines v = Ok lines.
Proof. intros H. unfold _add_summary. rewrite H. reflexivity. Qed.

Lemma add_sentences_falsy (rt : Runtime) (lines : list value) (v : value) :
  truthy v = false -> _add_sentences rt lines v = Ok lines.
Proof. intros H. unfold _add_sentences. rewrite H. reflexivity. Qed.

(** X8.  In a transcript, a date, participants, summary or sentences field
    that is null, or falsy in any other way, counts as missing: the report is
    the one of the transcript without that field (as long as the transcript
    has another field and so stays non-empty). *)
Theorem format_falsy_field_as_missing (rt : Runtime) (d : dict) (k : string) (v : value) :
  In k optional_fields ->
  lookup k d = Some v ->
  truthy v = false ->
  dict_remove k d <> [] ->
  format rt (response_of (VDict d)) = format rt (response_of (VDict (dict_remove k d))).
Proof.
  intros Hk Hget Hv Hrest.
  assert (Hd : d <> []) by (destruct d; [discriminate | discriminate]).
  rewrite (format_of_dict rt d Hd), (format_of_dict rt (dict_remove k d) Hrest).
  rewrite <- (add_header_without rt [] d k v Hk Hget Hv).
  destruct (_add_header rt [] (VDict d)) as [header|e]; cbn [bind]; [|reflexivity].
  assert (Hfield : forall default, field d k default = v)
    by (intros default; unfold field; rewrite Hget; reflexivity).
  destruct Hk as [<-|[<-|[<-|[<-|[]]]]].
  - rewrite !(field_remove_other "summary"), !(field_remove_other "sentences")
      by reflexivity. reflexivity.
  - rewrite !(field_remove_other "summary"), !(field_remove_other "sentences")
      by reflexivity. reflexivity.
  - rewrite !(field_remove_other "sentences") by reflexivity.
    rewrite field_remove_same, Hfield.
    rewrite (add_summary_falsy rt [] v Hv). reflexivity.
  - rewrite !(field_remove_other "summary") by reflexivity.
    rewrite field_remove_same, Hfield.
    destruct (_add_summary rt [] _) as [summary|e]; cbn [bind]; [|reflexivity].
    rewrite (add_sentences_falsy rt [] v Hv). reflexivity.
Qed.

Lemma format_falsy_field_as_missing_witness :
  format plain_runtime standup_response
  = format plain_runtime
      (response_of
         (VDict [("title", VStr "Standup"); ("id", VStr "ABCDEFGHIJKLMNOPQRSTUVWXYZ");
                 ("duration", VInt 125); ("date", VNone); ("participants", VList []);
                 ("sentences",
                  VList [VDict [("text", VStr "Hi"); ("speaker_name", VStr "Alice");
                                ("start_time", VInt 0)]])])).
Proof.
  refine (format_falsy_field_as_missing plain_runtime
            [("title", VStr "Standup"); ("id", VStr "ABCDEFGHIJKLMNOPQRSTUVWXYZ");
             ("duration", VInt 125); ("date", VNone); ("participants", VList []);
             ("sentences",
              VList [VDict [("text", VStr "Hi"); ("speaker_name", VStr "Alice");
                            ("start_time", VInt 0)]]);
             ("summary", VDict [])]
            "summary" (VDict []) _ eq_refl eq_refl _).
  - simpl. tauto.
  - discriminate.
Defined.

(** ** Fields that must be numbers *)

Lemma as_number_not (v : value) : is_number v = false -> as_number v = Raise TypeError.
Proof. destruct v; simpl; intros H; try discriminate; reflexivity. Qed.

Lemma sentence_step_dict (rt : Runtime) (lines : list value) (cur : value) (d : dict) :
  is_number (field d "start_time" (VInt 0)) = false ->
  sentence_step rt (lines, cur) (VDict d) = Raise TypeError.
Proof.
  intros H. rewrite sentence_step_eq. unfold effective_speaker, sentence_line.
  rewrite !py_get_dict. cbn [bind].
  assert (Hts : format_timestamp (field d "start_time" (VInt 0)) = Raise TypeError)
    by (unfold format_timestamp; rewrite (as_number_not _ H); reflexivity).
  rewrite Hts. destruct (truthy _); reflexivity.
Qed.

Lemma sentence_loop_type_error (rt : Runtime) (sentences : list value) :
  forallb is_dict sentences = true ->
  forallb sentence_ok sentences = false ->
  forall st, sentence_loop rt st sentences = Raise TypeError.
Proof.
  induction sentences as [|sentence rest IH]; cbn [forallb sentence_loop];
    intros Hdict Hbad [lines cur]; [discriminate|].
  apply andb_true_iff in Hdict as [Hd Hrest].
  destruct sentence as [| | | | | |d]; try discriminate.
  destruct (sentence_ok (VDict d)) eqn:Eok.
  - destruct (sentence_step_ok rt (VDict d) Eok lines cur) as (out & cur' & -> & _).
    cbn [bind]. apply IH; assumption.
  - rewrite (sentence_step_dict rt lines cur d Eok). reflexivity.
Qed.

(** X9.  The duration and the start times must be numbers when they are
    present: a transcript whose duration is null or any other non-number
    makes [format] raise a TypeError, and so does, in [_add_sentences], a
    list of sentence objects one of which has such a start_time. *)
Theorem format_needs_numbers (rt : Runtime) :
  (forall (d : dict) (v : value),
      lookup "duration" d = Some v ->
      is_number v = false ->
      format rt (response_of (VDict d)) = Raise TypeError) /\
  (forall (lines sentences : list value),
      forallb is_dict sentences = true ->
      forallb sentence_ok sentences = false ->
      _add_sentences rt lines (VList sentences) = Raise TypeError).
Proof.
  split.
  - intros d v Hget Hv.
    assert (Hd : d <> []) by (destruct d; discriminate).
    rewrite (format_of_dict rt d Hd).
    unfold _add_header. rewrite !py_get_dict. cbn [bind].
    assert (Hfield : field d "duration" (VInt 0) = v)
      by (unfold field; rewrite Hget; reflexivity).
    rewrite Hfield. unfold format_duration.
    rewrite (as_number_not v Hv). reflexivity.
  - intros lines sentences Hdict Hbad. unfold _add_sentences.
    destruct sentences as [|s0 rest]; [discriminate|]. cbn [truthy negb py_iter bind].
    rewrite (sentence_loop_type_error rt (s0 :: rest) Hdict Hbad). reflexivity.
Qed.

Lemma format_needs_numbers_witness :
  format plain_runtime
    (response_of (VDict [("title", VStr "Standup"); ("duration", VNone)]))
  = Raise TypeError /\
  _add_sentences plain_runtime []
    (VList [VDict [("text", VStr "Hi"); ("start_time", VInt 0)];
            VDict [("text", VStr "Bye"); ("start_time", VNone)]])
  = Raise TypeError.
Proof.
  split.
  - exact (proj1 (format_needs_numbers plain_runtime)
             [("title", VStr "Standup"); ("duration", VNone)] VNone eq_refl eq_refl).
  - exact (proj2 (format_needs_numbers plain_runtime) []
             [VDict [("text", VStr "Hi"); ("start_time", VInt 0)];
              VDict [("text", VStr "Bye"); ("start_time", VNone)]] eq_refl eq_refl).
Defined.

(** ** The lines of the header *)

Lemma prefix_append (a x : string) : prefix a (a ++ x) = true.
Proof.
  induction a as [|c a IH]; simpl; [destruct x; reflexivity|].
  destruct (ascii_dec c c); [exact IH | contradiction].
Qed.

Ltac header_lines :=
  rewrite <- !app_assoc; repeat split; auto;
  cbn [forallb line_starts]; rewrite ?prefix_append; reflexivity.

(** X10.  A header that is produced starts with the rule and the TITLE, ID
    and DURATION lines and ends with the rule and an empty line, with at most
    a DATE and a PARTICIPANTS line in between.  A missing title or id is
    shown as "N/A", a missing duration as "0s"; a title or id that is present
    is shown by [str], so that a null one reads "None". *)
Theorem add_header_layout
    (rt : Runtime) (lines out : list value) (d : dict) :
  _add_header rt lines (VDict d) = Ok out ->
  exists (dur : string) (optional : list value),
    format_duration (field d "duration" (VInt 0)) = Ok dur /\
    out = lines
          ++ [VStr (py_mul "=" 80);
              VStr ("TITLE: " ++ match lookup "title" d with
                                 | Some v => py_str rt v
                                 | None => "N/A"
                                 end);
              VStr ("ID: " ++ match lookup "id" d with
                              | Some v => py_str rt v
                              | None => "N/A"
                              end);
              VStr ("DURATION: " ++ dur)]
          ++ optional
          ++ [VStr (py_mul "=" 80); VStr ""] /\
    (List.length optional <= 2)%nat /\
    forallb (fun l => line_starts "DATE: " l || line_starts "PARTICIPANTS: " l) optional
    = true /\
    (lookup "duration" d = None -> dur = "0s") /\
    py_str rt VNone = "None".
Proof.
  unfold _add_header. rewrite !py_get_dict. cbn [bind]. intros H.
  apply bind_ok in H as (dur & Hdur & H).
  apply bind_ok in H as (lines1 & Hdate & H).
  apply bind_ok in H as (lines2 & Hpart & H). injection H as <-.
  assert (Htitle : forall dflt, py_str rt (field d "title" (VStr dflt))
                                = match lookup "title" d with
                                  | Some v => py_str rt v
                                  | None => dflt
                                  end)
    by (intros dflt; unfold field; destruct (lookup "title" d); reflexivity).
  assert (Hid : forall dflt, py_str rt (field d "id" (VStr dflt))
                             = match lookup "id" d with
                               | Some v => py_str rt v
                               | None => dflt
                               end)
    by (intros dflt; unfold field; destruct (lookup "id" d); reflexivity).
  rewrite Htitle, Hid in Hdate.
  assert (Hzero : lookup "duration" d = None -> dur = "0s").
  { intros Hnone. unfold field in Hdur. rewrite Hnone in Hdur.
    injection Hdur as <-. reflexivity. }
  exists dur.
  destruct (truthy (field d "date" VNone));
    [apply bind_ok in Hdate as (date_str & _ & Hdate)|];
    injection Hdate as <-;
    (destruct (truthy (field d "participants" (VList [])));
     [apply bind_ok in Hpart as (joined & _ & Hpart)|];
     injection Hpart as <-).
  - exists [VStr ("DATE: " ++ date_str); VStr ("PARTICIPANTS: " ++ joined)]. header_lines.
  - exists [VStr ("DATE: " ++ date_str)]. header_lines.
  - exists [VStr ("PARTICIPANTS: " ++ joined)]. header_lines.
  - exists []. header_lines.
Qed.

Lemma add_header_layout_witness :
  exists (dur : string) (optional : list value),
    format_duration (VInt 0) = Ok dur /\
    [VStr (py_mul "=" 80); VStr "TITLE: None"; VStr "ID: N/A"; VStr "DURATION: 0s";
     VStr "PARTICIPANTS: Alice, Bob"; VStr (py_mul "=" 80); VStr ""]
    = []
      ++ [VStr (py_mul "=" 80); VStr "TITLE: None"; VStr "ID: N/A";
          VStr ("DURATION: " ++ dur)]
      ++ optional
      ++ [VStr (py_mul "=" 80); VStr ""] /\
    (List.length optional <= 2)%nat /\
    forallb (fun l => line_starts "DATE: " l || line_starts "PARTICIPANTS: " l) optional
    = true /\
    (@None value = None -> dur = "0s") /\
    "None" = "None".
Proof.
  exact (add_header_layout plain_runtime []
           [VStr (py_mul "=" 80); VStr "TITLE: None"; VStr "ID: N/A";
            VStr "DURATION: 0s"; VStr "PARTICIPANTS: Alice, Bob";
            VStr (py_mul "=" 80); VStr ""]
           [("title", VNone); ("participants", VList [VStr "Alice"; VStr "Bob"])]
           eq_refl).
Defined.

(** ** Every sentence once, in order *)

Lemma sentence_line_opens (rt : Runtime) (sentence line : value) :
  sentence_line rt sentence = Ok line -> line_starts "[" line = true.
Proof.
  unfold sentence_line, format_timestamp. intros H.
  apply bind_ok in H as (text & _ & H). apply bind_ok in H as (start & _ & H).
  apply bind_ok in H as (timestamp & Hts & H).
  apply bind_ok in Hts as (n & _ & Hts).
  injection Hts as <-. injection H as <-.
  unfold line_starts. cbn [append]. apply (prefix_append "[").
Qed.

Lemma sentence_loop_lines (rt : Runtime) (sentences : list value) :
  forall (lines : list value) (cur : value) (st : list value * value),
    sentence_loop rt (lines, cur) sentences = Ok st ->
    exists stream body,
      fst st = lines ++ stream /\
      Forall2 (fun s b => sentence_line rt s = Ok b) sentences body /\
      filter (line_starts "[") stream = body /\
      (List.length stream <= 3 * List.length sentences)%nat.
Proof.
  induction sentences as [|sentence rest IH]; intros lines cur st; cbn [sentence_loop].
  - intros H. injection H as <-. exists [], []. rewrite app_nil_r.
    repeat split; [constructor | simpl; lia].
  - intros H. apply bind_ok in H as ([lines1 cur1] & Hstep & Hloop).
    rewrite sentence_step_eq in Hstep.
    apply bind_ok in Hstep as (speaker & _ & Hstep).
    apply bind_ok in Hstep as (line & Hline & Hstep).
    injection Hstep as <- <-.
    destruct (IH _ _ _ Hloop) as (stream & body & -> & Hbody & Hfilter & Hlen).
    pose proof (sentence_line_opens rt sentence line Hline) as Hopen.
    exists ((if py_eqb speaker cur then [] else [VStr ""; speaker_header rt speaker])
            ++ [line] ++ stream), (line :: body).
    repeat split.
    + rewrite <- !app_assoc. reflexivity.
    + constructor; assumption.
    + destruct (py_eqb speaker cur); cbn [app filter line_starts speaker_header];
        cbn [prefix append]; fold (line_starts "[" line); rewrite Hopen, Hfilter;
        reflexivity.
    + destruct (py_eqb speaker cur); rewrite !length_app; simpl; lia.
Qed.

(** X11.  Whatever the speakers are, a transcript block that is produced
    holds, after the banner, the line of every sentence exactly once and in
    the order of the sentences: the lines that start with "[" are the
    sentences' lines, and with the headers and empty lines the stream has at
    most three entries per sentence. *)
Theorem add_sentences_keeps_order
    (rt : Runtime) (lines out sentences : list value) :
  sentences <> [] ->
  _add_sentences rt lines (VList sentences) = Ok out ->
  exists stream body : list value,
    out = lines ++ transcript_banner ++ stream /\
    Forall2 (fun s b => sentence_line rt s = Ok b) sentences body /\
    filter (line_starts "[") stream = body /\
    (List.length sentences <= List.length stream <= 3 * List.length sentences)%nat.
Proof.
  intros Hne H. unfold _add_sentences in H.
  destruct sentences as [|s0 rest]; [contradiction|].
  cbn [truthy negb py_iter bind] in H.
  apply bind_ok in H as (st & Hloop & H). injection H as <-.
  destruct (sentence_loop_lines rt _ _ _ _ Hloop)
    as (stream & body & -> & Hbody & Hfilter & Hlen).
  exists stream, body. fold transcript_banner.
  repeat split; try assumption.
  - rewrite <- app_assoc. reflexivity.
  - rewrite (Forall2_length Hbody), <- Hfilter. apply filter_length_le.
Qed.

Lemma add_sentences_keeps_order_witness :
  exists stream body : list value,
    [VStr (py_mul "=" 80); VStr "FULL TRANSCRIPT"; VStr (py_mul "=" 80); VStr "";
     VStr ""; VStr "--- Alice ---"; VStr "[00:00] Hi"; VStr "[00:04] Bye"]
    = [] ++ transcript_banner ++ stream /\
    Forall2 (fun s b => sentence_line plain_runtime s = Ok b)
      [VDict [("text", VStr "Hi"); ("speaker_name", VStr "Alice")];
       VDict [("text", VStr "Bye"); ("speaker_name", VStr "Alice"); ("start_time", VInt 4)]]
      body /\
    filter (line_starts "[") stream = body /\
    (2 <= List.length stream <= 3 * 2)%nat.
Proof.
  assert (Hne : [VDict [("text", VStr "Hi"); ("speaker_name", VStr "Alice")];
                 VDict [("text", VStr "Bye"); ("speaker_name", VStr "Alice");
                        ("start_time", VInt 4)]] <> []) by discriminate.
  exact (add_sentences_keeps_order plain_runtime [] _ _ Hne eq_refl).
Defined.

(** ** File names, continued *)

Lemma length_append (a b : string) :
  String.length (a ++ b) = (String.length a + String.length b)%nat.
Proof. induction a as [|c a IH]; simpl; congruence. Qed.

Lemma sanitized_no_path_char (c : ascii) :
  sanitized c = true -> existsb (Ascii.eqb c) path_chars = false.
Proof.
  destruct c as [[] [] [] [] [] [] [] []]; vm_compute; intros H;
    first [reflexivity | discriminate H].
Qed.

Lemma upper_alnum_sanitized (c : ascii) : is_upper_alnum c = true -> sanitized c = true.
Proof.
  destruct c as [[] [] [] [] [] [] [] []]; vm_compute; intros H;
    first [reflexivity | discriminate H].
Qed.

Lemma all_chars_impl (p q : ascii -> bool) (s : string) :
  (forall c, p c = true -> q c = true) -> all_chars p s = true -> all_chars q s = true.
Proof.
  intros Hpq. induction s as [|c s IH]; simpl; [reflexivity|].
  intros H. apply andb_true_iff in H as [Hc Hs]. rewrite (Hpq c Hc), (IH Hs). reflexivity.
Qed.

Lemma safe_title_sanitized (title : string) :
  all_chars sanitized (Main.safe_title title) = true.
Proof.
  unfold Main.safe_title. rewrite re_sub_class_keep.
  apply slice_to_all, replace_space_all.
  destruct (strip_spec (keep_chars word_space_hyphen title))
    as (l & r & Hsplit & _).
  pose proof (keep_chars_all word_space_hyphen title) as Hall.
  rewrite Hsplit, !all_chars_app in Hall.
  apply andb_true_iff in Hall as [_ Hall].
  apply andb_true_iff in Hall as [Hall _]. exact Hall.
Qed.

(** X12.  When the input holds an identifier, the base file name has at
    most 77 characters, all of them word characters, hyphens or whitespace
    other than the space: it holds no slash, backslash, dot, colon or space,
    whatever the title is.  The title part alone is that clean for every
    input. *)
Theorem base_filename_clean (title s : string) :
  (all_chars sanitized (Main.safe_title title) = true /\
   all_chars (fun c => negb (existsb (Ascii.eqb c) path_chars)) (Main.safe_title title)
   = true) /\
  (forall i m,
      run_at is_upper_alnum 26 i s = Some m ->
      let name := Main.base_filename title (extract_transcript_id s) in
      (String.length name <= 77)%nat /\
      all_chars sanitized name = true /\
      all_chars (fun c => negb (existsb (Ascii.eqb c) path_chars)) name = true).
Proof.
  assert (Hclean : forall x, all_chars sanitized x = true ->
            all_chars (fun c => negb (existsb (Ascii.eqb c) path_chars)) x = true).
  { intros x. apply all_chars_impl. intros c Hc.
    rewrite (sanitized_no_path_char c Hc). reflexivity. }
  pose proof (safe_title_sanitized title) as Hsafe.
  split; [split; [exact Hsafe | exact (Hclean _ Hsafe)]|].
  intros i m Hrun name.
  assert (Hid : String.length (extract_transcript_id s) = 26%nat /\
                all_chars is_upper_alnum (extract_transcript_id s) = true).
  { unfold extract_transcript_id.
    destruct (re_search_class_n is_upper_alnum 26 s) as [m'|] eqn:E.
    - destruct (re_search_found _ _ s m' (match_class_n_head _ _) E) as (j & Hj & _).
      destruct (run_at_some _ _ _ _ _ Hj) as (_ & Hlen & Hall). auto.
    - rewrite (re_search_none _ _ s (match_class_n_head _ _) E i) in Hrun. discriminate. }
  destruct Hid as [Hlen Hall].
  assert (Hname : all_chars sanitized name = true).
  { unfold name, Main.base_filename. rewrite !all_chars_app, Hsafe.
    rewrite (all_chars_impl _ _ _ upper_alnum_sanitized Hall). reflexivity. }
  split; [|split; [exact Hname | exact (Hclean _ Hname)]].
  unfold name, Main.base_filename. rewrite !length_append, Hlen.
  assert (Hcut : (String.length (Main.safe_title title) <= 50)%nat)
    by apply slice_to_length.
  change (String.length "_") with 1%nat. lia.
Qed.

Lemma base_filename_clean_witness :
  (String.length (Main.base_filename "Q3: Plan/Review (final)"
                    (extract_transcript_id "v/01HZXABCDEFGHJKMNPQRSTVWXY")) <= 77)%nat /\
  Main.base_filename "Q3: Plan/Review (final)"
    (extract_transcript_id "v/01HZXABCDEFGHJKMNPQRSTVWXY")
  = "Q3_PlanReview_final_01HZXABCDEFGHJKMNPQRSTVWXY".
Proof.
  split; [|reflexivity].
  exact (proj1 (proj2 (base_filename_clean "Q3: Plan/Review (final)"
                         "v/01HZXABCDEFGHJKMNPQRSTVWXY")
                  2%nat "01HZXABCDEFGHJKMNPQRSTVWXY" eq_refl)).
Defined.

(** ** The entry point *)

Ltac run_io :=
  cbv beta iota delta [io_bind lift emit io_ret save_output];
  cbn [fst snd app].

(** [main] up to the point where the response is in hand. *)
Lemma main_with_key (p : Platform) (args : Args) (key : string) :
  key <> "" ->
  main p args (Some key) =
  match fetched p key (arg_transcript args) with
  | Raise e => (opening key (arg_transcript args) ++ handle p e, 1)
  | Ok data =>
      match deliver p args (extract_transcript_id (arg_transcript args)) data
              (opening key (arg_transcript args)) with
      | (trace, Ok _) => (trace, 0)
      | (trace, Raise e) => (trace ++ handle p e, 1)
      end
  end.
Proof.
  intros Hkey. unfold main, main_try, deliver, fetched, opening, the_request.
  assert (Htrue : truthy (VStr key) = true).
  { simpl. destruct (String.eqb key "") eqn:E; [|reflexivity].
    apply String.eqb_eq in E. contradiction. }
  rewrite Htrue. cbn [negb]. unfold FirefliesClient.__init__. rewrite Htrue. cbn [negb].
  cbv beta iota delta [io_bind lift emit]. cbn [FirefliesClient.session_headers py_str app].
  destruct (FirefliesClient.get_transcript _ _ _) as [data|e]; reflexivity.
Qed.


Section Effects.

Variable p : Platform.






Lemma adds_saves_more {A : Type} (j k : nat) (c : io A) :
  (j <= k)%nat -> adds_saves j c -> adds_saves k c.
Proof.
  intros Hjk Hc trace. destruct (Hc trace) as (ev & H & Hreq & Herr & Hsave).
  exists ev. repeat split; try assumption. lia.
Qed.



End Effects.



(** What [deliver] does when the title is found, step by step. *)
Lemma deliver_run (p : Platform) (args : Args) (id title : string) (data : value)
    (trace : list event) :
  Main.transcript_title data id = Ok title ->
  deliver p args id data trace =
  (let json_path := path_join p (arg_output args) (Main.json_name title id) in
   let txt_path := path_join p (arg_output args) (Main.txt_name title id) in
   _ <~ (if wants_json (arg_format args) then
           _ <~ save_output p (json_dumps p data) json_path ;;
           emit (Stdout ("Saved: " ++ json_path))
         else io_ret tt) ;;
   _ <~ (if wants_txt (arg_format args) then
           formatted <~ lift (format (runtime p) data) ;;
           _ <~ save_output p formatted txt_path ;;
           emit (Stdout ("Saved: " ++ txt_path))
         else io_ret tt) ;;
   emit (Stdout "Done.")) trace.
Proof. intros H. unfold deliver, io_bind at 1, lift at 1. rewrite H. reflexivity. Qed.

(** X14.  With a key, a response without errors, a title that is a string
    (or missing) and a file system that takes every file, [main] saves the
    raw JSON first, when asked for it, and the report second, when asked for
    it and the formatter returns one; it ends with "Done." and exit code 0.
    With the format json the formatter is not run: the run succeeds whatever
    the transcript holds. *)
Theorem main_success
    (p : Platform) (args : Args) (key title report : string) (data : value) :
  key <> "" ->
  fetched p key (arg_transcript args) = Ok data ->
  Main.transcript_title data (extract_transcript_id (arg_transcript args)) = Ok title ->
  (forall trace path content, file_system p trace path content = None) ->
  (wants_txt (arg_format args) = true -> format (runtime p) data = Ok report) ->
  let id := extract_transcript_id (arg_transcript args) in
  main p args (Some key) =
  (opening key (arg_transcript args)
   ++ (if wants_json (arg_format args)
       then saved (path_join p (arg_output args) (Main.json_name title id))
                  (json_dumps p data)
       else [])
   ++ (if wants_txt (arg_format args)
       then saved (path_join p (arg_output args) (Main.txt_name title id)) report
       else [])
   ++ [Stdout "Done."],
   0).
Proof.
  intros Hkey Hfetch Htitle Hfs Hreport id.
  rewrite (main_with_key p args key Hkey), Hfetch.
  rewrite (deliver_run p args _ title data _ Htitle).
  unfold saved. run_io.
  destruct (arg_format args); cbn [wants_json wants_txt] in *; run_io;
    rewrite ?Hfs; rewrite ?(Hreport eq_refl); run_io; rewrite ?Hfs;
    rewrite <- ?app_assoc; reflexivity.
Qed.

Lemma main_success_witness :
  main (plain_platform {| status_code := 200; json_body := Some (response_of (VDict [])) |})
    {| arg_transcript := "ABCDEFGHIJKLMNOPQRSTUVWXYZ"; arg_output := "out";
       arg_format := json |}
    (Some "secret")
  = (opening "secret" "ABCDEFGHIJKLMNOPQRSTUVWXYZ"
     ++ saved "out/ABCDEFGHIJKLMNOPQRSTUVWXYZ_ABCDEFGHIJKLMNOPQRSTUVWXYZ.json"
              "{'data': {'transcript': {}}}"
     ++ [] ++ [Stdout "Done."],
     0).
Proof.
  refine (main_success
            (plain_platform {| status_code := 200;
                               json_body := Some (response_of (VDict [])) |})
            {| arg_transcript := "ABCDEFGHIJKLMNOPQRSTUVWXYZ"; arg_output := "out";
               arg_format := json |}
            "secret" "ABCDEFGHIJKLMNOPQRSTUVWXYZ" "" (response_of (VDict []))
            _ eq_refl eq_refl _ _).
  - discriminate.
  - reflexivity.
  - discriminate.
Defined.

(** X15.  Output can be partial.  With the format both, when the raw JSON
    has been saved and the formatter then raises, [main] ends with exit code
    1 and the error message, and the JSON file stays where it was saved. *)
Theorem main_partial_output
    (p : Platform) (args : Args) (key title : string) (data : value) (e : pyexc) :
  key <> "" ->
  arg_format args = both ->
  fetched p key (arg_transcript args) = Ok data ->
  Main.transcript_title data (extract_transcript_id (arg_transcript args)) = Ok title ->
  let id := extract_transcript_id (arg_transcript args) in
  let json_path := path_join p (arg_output args) (Main.json_name title id) in
  file_system p (opening key (arg_transcript args)) json_path (json_dumps p data) = None ->
  format (runtime p) data = Raise e ->
  main p args (Some key) =
  (opening key (arg_transcript args)
   ++ saved json_path (json_dumps p data)
   ++ handle p e,
   1).
Proof.
  intros Hkey Hboth Hfetch Htitle id json_path Hfs Hformat.
  rewrite (main_with_key p args key Hkey), Hfetch.
  rewrite (deliver_run p args _ title data _ Htitle).
  rewrite Hboth. unfold saved. run_io. cbn [wants_json wants_txt].
  fold id. fold json_path. rewrite Hfs. run_io. rewrite Hformat.
  rewrite <- !app_assoc. reflexivity.
Qed.

Lemma main_partial_output_witness :
  main (plain_platform {| status_code := 200; json_body := Some (response_of (VDict [])) |})
    {| arg_transcript := "ABCDEFGHIJKLMNOPQRSTUVWXYZ"; arg_output := "out";
       arg_format := both |}
    (Some "secret")
  = (opening "secret" "ABCDEFGHIJKLMNOPQRSTUVWXYZ"
     ++ saved "out/ABCDEFGHIJKLMNOPQRSTUVWXYZ_ABCDEFGHIJKLMNOPQRSTUVWXYZ.json"
              "{'data': {'transcript': {}}}"
     ++ [Stderr "Error: Transcript not found in response"],
     1).
Proof.
  refine (main_partial_output
            (plain_platform {| status_code := 200;
                               json_body := Some (response_of (VDict [])) |})
            {| arg_transcript := "ABCDEFGHIJKLMNOPQRSTUVWXYZ"; arg_output := "out";
               arg_format := both |}
            "secret" "ABCDEFGHIJKLMNOPQRSTUVWXYZ" (response_of (VDict []))
            (ValueError "Transcript not found in response")
            _ eq_refl eq_refl eq_refl eq_refl eq_refl).
  discriminate.
Defined.

(** X16.  [main] looks up the title before it saves or formats anything.
    When the transcript in the response is present but not an object, null
    included, the lookup raises an AttributeError; when the title is present
    but not a string, null included, the cleaning of the title raises a
    TypeError.  Either way [main] ends with exit code 1 and that error and
    saves nothing, whatever the format; the formatter's own "Transcript not
    found in response" is not what a null transcript gets. *)
Theorem main_title_lookup_fails
    (p : Platform) (args : Args) (key : string) (data : value) (envelope : dict) :
  key <> "" ->
  fetched p key (arg_transcript args) = Ok data ->
  py_get data "data" (VDict []) = Ok (VDict envelope) ->
  (forall t, lookup "transcript" envelope = Some t -> is_dict t = false ->
             main p args (Some key)
             = (opening key (arg_transcript args)
                ++ [Stderr ("Error: " ++ exc_message p AttributeError)], 1)) /\
  (forall t title, lookup "transcript" envelope = Some (VDict t) ->
                   lookup "title" t = Some title -> is_str title = false ->
                   main p args (Some key)
                   = (opening key (arg_transcript args)
                      ++ [Stderr ("Error: " ++ exc_message p TypeError)], 1)) /\
  (lookup "transcript" envelope = Some VNone ->
   format (runtime p) data = Raise (ValueError "Transcript not found in response")).
Proof.
  intros Hkey Hfetch Hdata.
  rewrite (main_with_key p args key Hkey), Hfetch.
  split; [|split].
  - intros t Ht Hnot.
    assert (Htitle : Main.transcript_title data (extract_transcript_id (arg_transcript args))
                     = Raise AttributeError).
    { unfold Main.transcript_title. rewrite Hdata. cbn [bind py_get]. rewrite Ht.
      cbn [bind]. destruct t; try discriminate; reflexivity. }
    unfold deliver, io_bind at 1, lift at 1. rewrite Htitle. reflexivity.
  - intros t title Ht Htitle Hnot.
    assert (Hraise : Main.transcript_title data (extract_transcript_id (arg_transcript args))
                     = Raise TypeError).
    { unfold Main.transcript_title. rewrite Hdata. cbn [bind py_get]. rewrite Ht.
      cbn [bind py_get]. rewrite Htitle. cbn [bind].
      destruct title; try discriminate; reflexivity. }
    unfold deliver, io_bind at 1, lift at 1. rewrite Hraise. reflexivity.
  - intros Ht. unfold format. rewrite Hdata. cbn [bind py_get]. rewrite Ht. reflexivity.
Qed.

Lemma main_title_lookup_fails_witness :
  main (plain_platform {| status_code := 200; json_body := Some (response_of VNone) |})
    {| arg_transcript := "ABCDEFGHIJKLMNOPQRSTUVWXYZ"; arg_output := "out";
       arg_format := json |}
    (Some "secret")
  = (opening "secret" "ABCDEFGHIJKLMNOPQRSTUVWXYZ" ++ [Stderr "Error: error"], 1).
Proof.
  assert (Hkey : "secret" <> "") by discriminate.
  exact (proj1 (main_title_lookup_fails
                  (plain_platform {| status_code := 200;
                                     json_body := Some (response_of VNone) |})
                  {| arg_transcript := "ABCDEFGHIJKLMNOPQRSTUVWXYZ"; arg_output := "out";
                     arg_format := json |}
                  "secret" (response_of VNone) [("transcript", VNone)]
                  Hkey eq_refl eq_refl)
           VNone eq_refl eq_refl).
Defined.



(** ** Duration and timestamp, continued *)








(** X19.  A negative whole number of seconds is no error for
    [format_duration]: the hours, which are then negative, are dropped
    without a sign, and what is printed is the duration below one hour that
    differs from the input by a multiple of 3600 seconds (-1 is printed as
    "59m 59s"). *)
Theorem format_duration_negative (z : Z) :
  z < 0 ->
  0 <= z mod 3600 < 3600 /\
  format_duration (VInt z) = format_duration (VInt (z mod 3600)) /\
  format_duration (VInt z) =
  (if 0 <? z mod 3600 / 60
   then Ok (str_of_Z (z mod 3600 / 60) ++ "m " ++ str_of_Z (z mod 60) ++ "s")%string
   else Ok (str_of_Z (z mod 60) ++ "s")%string).
Proof.
  intros Hz.
  assert (Hr : 0 <= z mod 3600 < 3600) by (apply Z.mod_pos_bound; lia).
  assert (Hneg : format_duration (VInt z) =
                 (if 0 <? z mod 3600 / 60
                  then Ok (str_of_Z (z mod 3600 / 60) ++ "m "
                           ++ str_of_Z (z mod 60) ++ "s")%string
                  else Ok (str_of_Z (z mod 60) ++ "s")%string)).
  { unfold format_duration. cbn [as_number bind py_floordiv py_mod py_int].
    assert (Hh : (0 <? z / 3600) = false).
    { apply Z.ltb_ge. assert (z / 3600 < 0) by (apply Z.div_lt_upper_bound; lia). lia. }
    rewrite Hh. reflexivity. }
  split; [exact Hr|]. split; [|exact Hneg].
  rewrite Hneg. unfold format_duration. cbn [as_number bind py_floordiv py_mod py_int].
  rewrite (Z.div_small (z mod 3600) 3600) by exact Hr.
  rewrite Z.mod_mod by lia.
  replace ((z mod 3600) mod 60) with (z mod 60).
  2:{ symmetry. apply Z.mod_mod_divide. exists 60. reflexivity. }
  reflexivity.
Qed.

Lemma format_duration_negative_witness :
  format_duration (VInt (-1)) = Ok "59m 59s".
Proof.
  exact (proj2 (proj2 (format_duration_negative (-1) eq_refl))).
Defined.

(** ** Fields that are fetched and not shown *)

Ltac not_read H :=
  unfold reads in H; cbn [existsb transcript_fields summary_fields sentence_fields] in H;
  repeat (apply orb_false_iff in H; let E := fresh "E" in destruct H as [E H]);
  clear H.

Lemma add_header_other_field (rt : Runtime) (lines : list value) (d : dict) (k : string) :
  reads transcript_fields k = false ->
  _add_header rt lines (VDict d) = _add_header rt lines (VDict (dict_remove k d)).
Proof.
  intros H. not_read H. unfold _add_header. rewrite !py_get_dict.
  rewrite !(field_remove_other "title"), !(field_remove_other "id"),
    !(field_remove_other "duration"), !(field_remove_other "date"),
    !(field_remove_other "participants") by assumption.
  reflexivity.
Qed.

Lemma add_summary_other_field (rt : Runtime) (lines : list value) (d : dict) (k : string) :
  reads summary_fields k = false ->
  _add_summary rt lines (VDict d) = _add_summary rt lines (VDict (dict_remove k d)).
Proof.
  intros H. not_read H.
  assert (Hget : forall k', String.eqb k k' = false ->
                            py_get (VDict d) k' VNone
                            = py_get (VDict (dict_remove k d)) k' VNone).
  { intros k' Hk'. rewrite !py_get_dict, field_remove_other by exact Hk'. reflexivity. }
  destruct d as [|kv d]; [reflexivity|].
  destruct (dict_remove k (kv :: d)) as [|kv' d'] eqn:Hrest.
  - unfold _add_summary at 1.
    rewrite (Hget "overview"), (Hget "keywords"), (Hget "action_items") by assumption.
    reflexivity.
  - unfold _add_summary.
    rewrite (Hget "overview"), (Hget "keywords"), (Hget "action_items") by assumption.
    reflexivity.
Qed.

Lemma sentence_step_other_field
    (rt : Runtime) (st : list value * value) (sentence : value) (k : string) :
  reads sentence_fields k = false ->
  sentence_step rt st sentence = sentence_step rt st (without_key k sentence).
Proof.
  intros H. not_read H.
  destruct sentence as [| | | | | |d]; try reflexivity.
  unfold without_key, sentence_step, effective_speaker. rewrite !py_get_dict.
  rewrite !(field_remove_other "speaker_name"), !(field_remove_other "speaker_id"),
    !(field_remove_other "text"), !(field_remove_other "start_time") by assumption.
  reflexivity.
Qed.

Lemma sentence_loop_other_field
    (rt : Runtime) (sentences : list value) (st : list value * value) (k : string) :
  reads sentence_fields k = false ->
  sentence_loop rt st sentences = sentence_loop rt st (map (without_key k) sentences).
Proof.
  intros H. revert st.
  induction sentences as [|s rest IH]; intros st; [reflexivity|].
  cbn [sentence_loop map]. rewrite <- (sentence_step_other_field rt st s k H).
  destruct (sentence_step rt st s) as [st'|e]; cbn [bind]; [apply IH | reflexivity].
Qed.

(** X20.  The report shows nothing but the fields the formatter reads: the
    title, id, duration, date, participants, summary and sentences of the
    transcript, the overview, keywords and action_items of the summary, the
    speaker_name, speaker_id, text and start_time of a sentence.  Any other
    field, such as the transcript_url, the shorthand_bullet of the summary and
    the end_time of a sentence, which the query asks for, can be dropped from
    the response without a change to the outcome, as long as the transcript
    keeps a field. *)
Theorem format_ignores_other_fields (rt : Runtime) (k : string) :
  (forall d, reads transcript_fields k = false -> dict_remove k d <> [] ->
             format rt (response_of (VDict d))
             = format rt (response_of (VDict (dict_remove k d)))) /\
  (forall lines d, reads summary_fields k = false ->
                   _add_summary rt lines (VDict d)
                   = _add_summary rt lines (VDict (dict_remove k d))) /\
  (forall lines sentences,
      reads sentence_fields k = false ->
      _add_sentences rt lines (VList sentences)
      = _add_sentences rt lines (VList (map (without_key k) sentences))).
Proof.
  split; [|split].
  - intros d H Hrest.
    assert (Hd : d <> []) by (destruct d; [exact Hrest | discriminate]).
    rewrite (format_of_dict rt d Hd), (format_of_dict rt (dict_remove k d) Hrest).
    rewrite <- (add_header_other_field rt [] d k H). not_read H.
    rewrite !(field_remove_other "summary"), !(field_remove_other "sentences")
      by assumption.
    reflexivity.
  - intros lines d H. apply add_summary_other_field, H.
  - intros lines sentences H. unfold _add_sentences.
    destruct sentences as [|s rest]; [reflexivity|].
    cbn [truthy map negb py_iter bind].
    rewrite <- (sentence_loop_other_field rt (s :: rest) _ k H). reflexivity.
Qed.

Lemma format_ignores_other_fields_witness :
  format plain_runtime
    (response_of (VDict [("title", VStr "Standup"); ("transcript_url", VStr "https://x")]))
  = format plain_runtime (response_of (VDict [("title", VStr "Standup")])) /\
  _add_summary plain_runtime []
    (VDict [("overview", VStr "Plans"); ("shorthand_bullet", VStr "- plans")])
  = _add_summary plain_runtime [] (VDict [("overview", VStr "Plans")]) /\
  _add_sentences plain_runtime []
    (VList [VDict [("text", VStr "Hi"); ("start_time", VInt 0); ("end_time", VInt 2)]])
  = _add_sentences plain_runtime []
      (VList [VDict [("text", VStr "Hi"); ("start_time", VInt 0)]]).
Proof.
  split; [|split].
  - refine (proj1 (format_ignores_other_fields plain_runtime "transcript_url")
              [("title", VStr "Standup"); ("transcript_url", VStr "https://x")]
              eq_refl _).
    discriminate.
  - exact (proj1 (proj2 (format_ignores_other_fields plain_runtime "shorthand_bullet"))
             [] [("overview", VStr "Plans"); ("shorthand_bullet", VStr "- plans")]
             eq_refl).
  - exact (proj2 (proj2 (format_ignores_other_fields plain_runtime "end_time"))
             []
             [VDict [("text", VStr "Hi"); ("start_time", VInt 0); ("end_time", VInt 2)]]
             eq_refl).
Defined.

(** ** An overview that is not a string *)

Lemma all_str_not_str (v : value) (l : list value) :
  In v l -> is_str v = false -> all_str l = Raise TypeError.
Proof.
  intros Hin Hv. induction l as [|x l IH]; [destruct Hin|].
  destruct Hin as [->|Hin].
  - destruct v; try reflexivity. discriminate.
  - destruct x; try reflexivity. cbn [all_str]. rewrite (IH Hin). reflexivity.
Qed.

Lemma add_summary_keeps_overview
    (rt : Runtime) (lines out : list value) (s : dict) (ov : value) :
  lookup "overview" s = Some ov -> truthy ov = true ->
  _add_summary rt lines (VDict s) = Ok out -> In ov out.
Proof.
  intros Hov Htrue. unfold _add_summary.
  assert (Hs : truthy (VDict s) = true) by (destruct s; [discriminate | reflexivity]).
  rewrite Hs, !py_get_dict. cbn [negb bind].
  assert (Hfield : field s "overview" VNone = ov) by (unfold field; rewrite Hov; reflexivity).
  rewrite Hfield, Htrue.
  set (l1 := lines ++ [VStr "--- SUMMARY ---"; ov; VStr ""]).
  assert (H1 : In ov l1) by (apply in_or_app; right; simpl; tauto).
  clearbody l1.
  assert (Hkeywords : forall l2,
             (if truthy (field s "keywords" VNone)
              then match field s "keywords" VNone with
                   | VList _ =>
                       joined <- py_join ", " (field s "keywords" VNone) ;;
                       Ok (l1 ++ [VStr "--- KEYWORDS ---"; VStr joined; VStr ""])
                   | _ =>
                       Ok (l1 ++ [VStr "--- KEYWORDS ---";
                                  VStr (py_str rt (field s "keywords" VNone)); VStr ""])
                   end
              else Ok l1) = Ok l2 -> In ov l2).
  { intros l2 H2. destruct (truthy (field s "keywords" VNone)).
    - destruct (field s "keywords" VNone) as [| | | | |kw|];
        try (injection H2 as <-; apply in_or_app; left; exact H1).
      destruct (py_join ", " (VList kw)); [|discriminate].
      injection H2 as <-. apply in_or_app. left. exact H1.
    - injection H2 as <-. exact H1. }
  intros H. apply bind_ok in H as (l2 & H2 & H). apply Hkeywords in H2.
  destruct (truthy (field s "action_items" VNone)).
  - destruct (field s "action_items" VNone) as [| | | |a| |];
      try (apply bind_ok in H as (items & _ & H));
      injection H as <-; apply in_or_app; left; apply in_or_app; left; exact H2.
  - injection H as <-. exact H2.
Qed.

(** X21.  The overview of the summary is appended to the report as it is,
    not through [str] as the keywords and the action items are.  When it is
    present, truthy and not a string (a number, a list of paragraphs),
    [_add_summary] still returns, with the overview among its lines, and
    [format] never returns a report: once the header, the summary and the
    transcript block are made, the final join raises a TypeError. *)
Theorem format_overview_not_string (rt : Runtime) (d s : dict) (ov : value) :
  lookup "summary" d = Some (VDict s) ->
  lookup "overview" s = Some ov ->
  truthy ov = true ->
  is_str ov = false ->
  (forall lines out, _add_summary rt lines (VDict s) = Ok out -> In ov out) /\
  (exists e, format rt (response_of (VDict d)) = Raise e) /\
  (forall header summary stream,
      _add_header rt [] (VDict d) = Ok header ->
      _add_summary rt [] (VDict s) = Ok summary ->
      _add_sentences rt [] (field d "sentences" (VList [])) = Ok stream ->
      format rt (response_of (VDict d)) = Raise TypeError).
Proof.
  intros Hsum Hov Htrue Hstr.
  assert (Hd : d <> []) by (destruct d; [discriminate | discriminate]).
  assert (Hfield : field d "summary" (VDict []) = VDict s)
    by (unfold field; rewrite Hsum; reflexivity).
  assert (Hjoin : forall header summary stream,
             _add_summary rt [] (VDict s) = Ok summary ->
             py_join newline (VList (header ++ summary ++ stream)) = Raise TypeError).
  { intros header summary stream Hsummary. unfold py_join. cbn [py_iter bind].
    rewrite (all_str_not_str ov); [reflexivity | | exact Hstr].
    apply in_or_app. right. apply in_or_app. left.
    exact (add_summary_keeps_overview rt [] summary s ov Hov Htrue Hsummary). }
  split; [|split].
  - intros lines out. apply add_summary_keeps_overview; assumption.
  - rewrite (format_of_dict rt d Hd), Hfield.
    destruct (_add_header rt [] (VDict d)) as [header|e]; cbn [bind]; [|exists e; reflexivity].
    destruct (_add_summary rt [] (VDict s)) as [summary|e] eqn:Hsummary; cbn [bind];
      [|exists e; reflexivity].
    destruct (_add_sentences rt [] _) as [stream|e]; cbn [bind]; [|exists e; reflexivity].
    exists TypeError. apply Hjoin. reflexivity.
  - intros header summary stream Hheader Hsummary Hstream.
    rewrite (format_of_dict rt d Hd), Hfield, Hheader, Hsummary, Hstream. cbn [bind].
    apply Hjoin, Hsummary.
Qed.

Lemma format_overview_not_string_witness :
  In (VInt 5) [VStr "--- SUMMARY ---"; VInt 5; VStr ""] /\
  format plain_runtime (response_of (VDict [("summary", VDict [("overview", VInt 5)])]))
  = Raise TypeError.
Proof.
  split.
  - exact (proj1 (format_overview_not_string plain_runtime
                    [("summary", VDict [("overview", VInt 5)])] [("overview", VInt 5)]
                    (VInt 5) eq_refl eq_refl eq_refl eq_refl)
             [] [VStr "--- SUMMARY ---"; VInt 5; VStr ""] eq_refl).
  - exact (proj2 (proj2 (format_overview_not_string plain_runtime
                           [("summary", VDict [("overview", VInt 5)])]
                           [("overview", VInt 5)]
                           (VInt 5) eq_refl eq_refl eq_refl eq_refl))
             [VStr (py_mul "=" 80); VStr "TITLE: N/A"; VStr "ID: N/A"; VStr "DURATION: 0s";
              VStr (py_mul "=" 80); VStr ""]
             [VStr "--- SUMMARY ---"; VInt 5; VStr ""]
             [] eq_refl eq_refl eq_refl).
Defined.

(** ** A download that fails *)

Lemma fetched_answer (p : Platform) (key input : string) :
  fetched p key input =
  (response <- answer p key input ;;
   _ <- raise_for_status response ;;
   data <- response_json response ;;
   has_errors <- py_contains "errors" data ;;
   if has_errors then
     errors <- py_getitem data "errors" ;;
     Raise (Exception ("GraphQL Error: " ++ py_str (runtime p) errors))
   else Ok data).
Proof. reflexivity. Qed.

(** X22.  When the download fails [main] saves nothing and ends with exit
    code 1 after the lines of the handler.  A response with a 4xx or 5xx
    status gives the line "HTTP Error: ..." and, when the error carries a
    response, the line "Response: ..." with its text; a response with GraphQL
    errors gives the one line "Error: GraphQL Error: ..." with the errors as
    [str] prints them. *)
Theorem main_download_fails (p : Platform) (args : Args) (key : string) :
  key <> "" ->
  let input := arg_transcript args in
  (forall e, fetched p key input = Raise e ->
             main p args (Some key) = (opening key input ++ handle p e, 1) /\
             filter is_save (fst (main p args (Some key))) = []) /\
  (forall r, answer p key input = Ok r ->
             400 <= status_code r < 600 ->
             main p args (Some key)
             = (opening key input
                ++ Stderr ("HTTP Error: " ++ exc_message p (HTTPError (status_code r)))
                   :: match response_text p (HTTPError (status_code r)) with
                      | Some text => [Stderr ("Response: " ++ text)]
                      | None => []
                      end,
                1)) /\
  (forall r body errors,
      answer p key input = Ok r ->
      status_code r < 400 \/ 600 <= status_code r ->
      json_body r = Some (VDict body) ->
      lookup "errors" body = Some errors ->
      main p args (Some key)
      = (opening key input
         ++ [Stderr ("Error: GraphQL Error: " ++ py_str (runtime p) errors)], 1)).
Proof.
  intros Hkey input. rewrite (main_with_key p args key Hkey). fold input.
  split; [|split].
  - intros e ->. split; [reflexivity|].
    cbn [fst]. rewrite filter_app.
    destruct e; cbn [handle]; try reflexivity.
    destruct (response_text p _); reflexivity.
  - intros r Hr Hstatus. rewrite fetched_answer, Hr. cbn [bind].
    unfold raise_for_status.
    replace ((400 <=? status_code r) && (status_code r <? 600)) with true; [reflexivity|].
    symmetry. apply andb_true_iff. split; [apply Z.leb_le | apply Z.ltb_lt]; lia.
  - intros r body errors Hr Hstatus Hbody Herrors. rewrite fetched_answer, Hr. cbn [bind].
    unfold raise_for_status, response_json.
    replace ((400 <=? status_code r) && (status_code r <? 600)) with false.
    2:{ symmetry. apply andb_false_iff.
        destruct Hstatus; [left; apply Z.leb_gt | right; apply Z.ltb_ge]; lia. }
    rewrite Hbody. cbn [bind py_contains py_getitem]. rewrite Herrors. reflexivity.
Qed.

Lemma main_download_fails_witness :
  main (plain_platform {| status_code := 401; json_body := None |})
    {| arg_transcript := "ABCDEFGHIJKLMNOPQRSTUVWXYZ"; arg_output := "out";
       arg_format := both |}
    (Some "secret")
  = (opening "secret" "ABCDEFGHIJKLMNOPQRSTUVWXYZ" ++ [Stderr "HTTP Error: error"], 1).
Proof.
  assert (Hkey : "secret" <> "") by discriminate.
  assert (Hstatus : 400 <= 401 < 600) by lia.
  exact (proj1 (proj2 (main_download_fails
                         (plain_platform {| status_code := 401; json_body := None |})
                         {| arg_transcript := "ABCDEFGHIJKLMNOPQRSTUVWXYZ";
                            arg_output := "out"; arg_format := both |}
                         "secret" Hkey))
           {| status_code := 401; json_body := None |} eq_refl Hstatus).
Defined.
